(** * Windowed cumulative comparison of the onboarding dashboard

    A shallow embedding of the core of [app.py]: [get_window_data],
    [calc_delta], [get_delta_pct] and [create_combined_data], together
    with the pandas operations they are written with; then of what the
    dashboard does with them: [filter_data], [create_combined_chart],
    [generate_streamlit_chart] and the onboarding part of the script.

    Conventions of the embedding.
    - A calendar date is the number of its day, counted from
      1970-01-01, an integer; a pandas
      [Timedelta(days=n)] is the integer [n].  The client frame is loaded
      through [parse_date_columns] with the format [%m/%d/%Y], so its
      [date_created] values carry no time of day and are dates.
    - A frame is the list of its rows, in row order.  The frames the
      dashboard passes between its functions are Python objects: they
      live in a heap, a list of frames addressed by position, and the
      functions of [app.py] are written in a state-and-exception monad
      over that heap.
    - [DataFrame.merge(how='outer')] returns the union of the join keys
      sorted lexicographically, as pandas documents it. *)

From Stdlib Require Import ZArith QArith Lia.
From stdpp Require Import base list list_numbers sets sorting strings pretty.

Local Open Scope Z_scope.

(** ** Pandas operations *)

Module Pandas.

Definition date := Z.

(** [pd.date_range(start=s, end=e, freq="D")]: every day from [s] to
    [e], both included; empty when [e] is before [s]. *)
Definition date_range (s e : date) : list date := seqZ s (e - s + 1).

(** Number of occurrences of a key in a column. *)
Definition occurrences (k : date) (col : list date) : Z :=
  Z.of_nat (length (filter (λ d, d = k) col)).

(** [col.value_counts().sort_index().reset_index()]: one row per distinct
    value, with the number of its occurrences in column [count], the
    rows ordered by value. *)
Definition value_counts_sort_index (col : list date) : list (date * Z) :=
  (λ k, (k, occurrences k col)) <$> merge_sort Z.le (remove_dups col).

(** Join keys of an outer merge: the union of both key columns, each
    key once, sorted. *)
Definition outer_keys (lk rk : list date) : list date :=
  merge_sort Z.le (remove_dups (lk ++ rk)).

(** [left.merge(right, how='outer')] on the one shared column, the
    date.  For each key the matching rows of both sides are paired
    (left-major); a key missing on one side gives rows whose columns
    from that side are NaN, here [None]. *)
Definition merge_outer {A B : Type}
    (l : list (date * A)) (r : list (date * B))
    : list (date * option A * option B) :=
  k ← outer_keys (l.*1) (r.*1);
  let ls := filter (λ x, x.1 = k) l in
  let rs := filter (λ y, y.1 = k) r in
  match ls, rs with
  | [], _ => (λ y, (k, None, Some y.2)) <$> rs
  | _, [] => (λ x, (k, Some x.2, None)) <$> ls
  | _, _ => x ← ls; (λ y, (k, Some x.2, Some y.2)) <$> rs
  end.

(** The value a keyed frame holds at a key, if it has the key. *)
Definition value_at {A : Type} (k : date) (f : list (date * A)) : option A :=
  snd <$> head (filter (λ x, x.1 = k) f).

(** A frame whose only column is the date (a date range turned into a
    frame or a named series). *)
Definition key_frame (ts : list date) : list (date * unit) :=
  (λ d, (d, ())) <$> ts.

(** [ts.merge(counts, how='outer').fillna(0)], [ts] a date-only frame
    on the left. *)
Definition merge_ts_counts (ts : list date) (counts : list (date * Z))
    : list (date * Z) :=
  (λ row, (row.1.1, default 0 row.2)) <$> merge_outer (key_frame ts) counts.

(** [counts.merge(ts, how='outer').fillna(0)], [ts] a date-only series
    on the right. *)
Definition merge_counts_ts (counts : list (date * Z)) (ts : list date)
    : list (date * Z) :=
  (λ row, (row.1.1, default 0 row.1.2)) <$> merge_outer counts (key_frame ts).

(** [col.cumsum()]: the running sum, left to right. *)
Fixpoint cumsum_from (acc : Z) (col : list Z) : list Z :=
  match col with
  | [] => []
  | x :: rest => (acc + x) :: cumsum_from (acc + x) rest
  end.

Definition cumsum_col (col : list Z) : list Z := cumsum_from 0 col.

(** Sum of a column, used to state what a running sum is. *)
Definition sum_col (col : list Z) : Z := foldr Z.add 0 col.

End Pandas.

Import Pandas.

(** ** Python values, exceptions and the object heap *)

(** A Python or numpy number: a rational (every value the dashboard
    divides is an integer or a finite float) or NaN, which is what
    [Series.max()] gives on an empty column. *)
Inductive pynum :=
  | Num (q : Q)
  | NaN.

(** The exceptions the modelled code can raise.  [DanglingRef] is not a
    Python exception: it is what reading a reference to no object gives,
    which a Python name never is. *)
Inductive exn :=
  | ValueError (msg : string)
  | ZeroDivisionError
  | IndexError
  | DanglingRef.

Inductive outcome (A : Type) :=
  | Returned (a : A)
  | Raised (e : exn).

Arguments Returned {A} a.
Arguments Raised {A} e.

(** A cell of the [count] column: a number, NaN, or an object that
    [pd.to_numeric] cannot read as a number. *)
Inductive cell :=
  | CNum (z : Z)
  | CNaN
  | CObj.

Inductive Period :=
  | Previous
  | Current.

Global Instance Period_eq_dec : EqDecision Period.
Proof. solve_decision. Defined.

(** One row of a frame.  Every frame here has the column [date_created];
    a column the frame does not have (yet) is NaN, [None], in the row. *)
Record Row := mkRow {
  date_created : date;
  count : cell;
  cumsum : option Z;
  period : option Period;
  combined_cumsum : option Z
}.

Abbreviation DataFrame := (list Row).
Abbreviation heap := (list (list Row)).
Abbreviation ref := nat.

Definition set_count (c : cell) (r : Row) : Row :=
  mkRow (date_created r) c (cumsum r) (period r) (combined_cumsum r).
Definition set_cumsum (r : Row) (c : Z) : Row :=
  mkRow (date_created r) (count r) (Some c) (period r) (combined_cumsum r).
Definition set_period (p : Period) (r : Row) : Row :=
  mkRow (date_created r) (count r) (cumsum r) (Some p) (combined_cumsum r).
Definition set_combined_cumsum (r : Row) (c : Z) : Row :=
  mkRow (date_created r) (count r) (cumsum r) (period r) (Some c).

(** The monad of the functions of [app.py]: a computation reads and
    writes the heap and either returns or raises; the heap at the point
    of a raise is kept. *)
Definition M (A : Type) : Type := heap → outcome A * heap.

Definition ret {A} (a : A) : M A := λ h, (Returned a, h).
Definition raise {A} (e : exn) : M A := λ h, (Raised e, h).
Definition bind {A B} (m : M A) (k : A → M B) : M B :=
  λ h, match m h with
       | (Returned a, h') => k a h'
       | (Raised e, h') => (Raised e, h')
       end.
Definition lift {A} (o : outcome A) : M A := λ h, (o, h).

Notation "'do' x <- m ; k" := (bind m (λ x, k))
  (at level 10, x name, m at level 100, k at level 200,
   format "'[v' 'do'  x  <-  m ; '/' k ']'").
Notation "m ;; k" := (bind m (λ _, k))
  (at level 100, k at level 200, right associativity).

(** Reading the object a name is bound to. *)
Definition load (r : ref) : M DataFrame :=
  λ h, match h !! r with
       | Some f => (Returned f, h)
       | None => (Raised DanglingRef, h)
       end.

(** A new object: [.copy()], [pd.concat], [pd.DataFrame(...)], a merge or
    a selection all build one. *)
Definition alloc (f : DataFrame) : M ref :=
  λ h, (Returned (length h), h ++ [f]).

(** A write in place: [frame[col] = ...] and [frame.loc[:, col] = ...]. *)
Definition update (r : ref) (f : DataFrame) : M unit :=
  λ h, match h !! r with
       | Some _ => (Returned (), <[r := f]> h)
       | None => (Raised DanglingRef, h)
       end.

(** ** [app.py] *)

Record globals := mkGlobals {
  CURRENT_DATE : date;
  API_KEY : string
}.

Definition numeric (c : cell) : option Z :=
  match c with CNum z => Some z | _ => None end.

Definition to_rows (f : list (date * Z)) : DataFrame :=
  (λ p, mkRow p.1 (CNum p.2) None None None) <$> f.

(** [frame['cumsum'] = frame['count'].cumsum().astype(int)], in place.
    [astype(int)] refuses a column that is not all numbers. *)
Definition assign_cumsum (r : ref) : M unit :=
  do rows <- load r;
  match mapM numeric (count <$> rows) with
  | Some col => update r (zip_with set_cumsum rows (cumsum_col col))
  | None => raise (ValueError "Cannot convert non-finite values (NA or inf) to integer")
  end.

(** [get_window_data(df, days)], lines 82-136.  [CURRENT_DATE] is the
    module global.  The frames the function writes in place or returns
    ([data], [previous_data3] and the three merged windows) are objects,
    allocated where the source builds them; what it builds on the way
    (the date ranges, [raw_data], the slices before the second merge) is
    used once and kept as a value. *)
Definition get_window_data (g : globals) (df : ref) (days : Z)
    : M (ref * ref * ref * ref * ref) :=
  let start_curr := CURRENT_DATE g - days in
  let start_prev := CURRENT_DATE g - days * 2 in
  let start_prev2 := CURRENT_DATE g - days * 3 in
  let start_prev3 := CURRENT_DATE g - days * 4 in
  let ts_curr := date_range start_curr (CURRENT_DATE g) in
  let ts_prev := date_range start_prev start_curr in
  let ts_prev2 := date_range start_prev2 start_prev in
  let ts_prev3 := date_range start_prev3 start_prev2 in
  let start_date := start_prev3 in
  let end_date := CURRENT_DATE g in
  do df_rows <- load df;
  (* lines 102-103 *)
  let raw_data :=
    filter (λ r, start_date ≤ date_created r ∧ date_created r ≤ end_date) df_rows in
  let raw_data := value_counts_sort_index (date_created <$> raw_data) in
  (* lines 106-107 *)
  let ts := date_range start_date end_date in
  do data <- alloc (to_rows (merge_ts_counts ts raw_data));
  (* lines 110-122: the four half-open slices *)
  let current_data := merge_ts_counts ts raw_data in
  let current_data :=
    filter (λ r, start_curr < r.1 ∧ r.1 ≤ CURRENT_DATE g) current_data in
  let previous_data := merge_ts_counts ts raw_data in
  let previous_data :=
    filter (λ r, start_prev < r.1 ∧ r.1 ≤ start_curr) previous_data in
  let previous_data2 := merge_ts_counts ts raw_data in
  let previous_data2 :=
    filter (λ r, start_prev2 < r.1 ∧ r.1 ≤ start_prev) previous_data2 in
  let previous_data3 := merge_ts_counts ts raw_data in
  do previous_data3 <-
    alloc (to_rows
      (filter (λ r, start_prev3 < r.1 ∧ r.1 ≤ start_prev2) previous_data3));
  (* lines 125-127: three of them merged back onto their closed range *)
  do current_data <- alloc (to_rows (merge_counts_ts current_data ts_curr));
  do previous_data <- alloc (to_rows (merge_counts_ts previous_data ts_prev));
  do previous_data2 <- alloc (to_rows (merge_counts_ts previous_data2 ts_prev2));
  (* lines 130-134 *)
  assign_cumsum data;;
  assign_cumsum current_data;;
  assign_cumsum previous_data;;
  assign_cumsum previous_data2;;
  assign_cumsum previous_data3;;
  ret (data, current_data, previous_data, previous_data2, previous_data3).

(** Python's [==] with [0], [-] and [/] on numbers. *)
Definition is_zero (x : pynum) : bool :=
  match x with Num q => Qeq_bool q 0 | NaN => false end.

Definition py_sub (x y : pynum) : pynum :=
  match x, y with Num a, Num b => Num (a - b) | _, _ => NaN end.

Definition py_truediv (x y : pynum) : outcome pynum :=
  match y with
  | Num b =>
      if Qeq_bool b 0 then Raised ZeroDivisionError
      else match x with Num a => Returned (Num (a / b)) | NaN => Returned NaN end
  | NaN => Returned NaN
  end.

Definition py_lt0 (x : pynum) : bool :=
  match x with
  | Num q => if Qlt_le_dec q 0 then true else false
  | NaN => false
  end.

(** [calc_delta(curr, prev)], lines 138-145. *)
Definition calc_delta (curr prev : pynum) : outcome pynum :=
  if is_zero prev then
    if is_zero curr then Returned (Num 0)
    else Returned (Num 1)
  else py_truediv (py_sub curr prev) prev.

(** [col.max()]: the largest value that is not NaN, NaN when there is
    none. *)
Definition series_max (col : list (option Z)) : pynum :=
  match omap id col with
  | [] => NaN
  | x :: rest => Num (inject_Z (foldr Z.max x rest))
  end.

(** [get_delta_pct(current_data, previous_data)], lines 147-181: the
    delta of the two largest cumulative values, and the two line colours
    (red when the delta is negative, green otherwise). *)
Definition get_delta_pct (current_data previous_data : ref)
    : M (pynum * string * string) :=
  do cur <- load current_data;
  do prev <- load previous_data;
  let curr_cumsum_max := series_max (cumsum <$> cur) in
  let prev_cumsum_max := series_max (cumsum <$> prev) in
  do delta_pct <- lift (calc_delta curr_cumsum_max prev_cumsum_max);
  if py_lt0 delta_pct then
    ret (delta_pct, "rgba(255, 43, 43, 0.1)"%string, "rgb(255, 43, 43)"%string)
  else
    ret (delta_pct, "rgba(33, 195, 84, 0.1)"%string, "rgb(21, 130, 55)"%string).

(** [frame.iloc[-2]]: the second-to-last row. *)
Definition iloc_neg2 (rows : DataFrame) : M Row :=
  match rev rows with
  | _ :: r :: _ => ret r
  | _ => raise IndexError
  end.

(** [pd.to_numeric(cell, errors='coerce')]. *)
Definition to_numeric (c : cell) : cell :=
  match c with CNum z => CNum z | CNaN => CNaN | CObj => CNaN end.

(** [cell.fillna(0)] on a numeric column. *)
Definition fillna0 (c : cell) : Z :=
  match c with CNum z => z | _ => 0 end.

(** [create_combined_data(current_data, previous_data)], lines 183-216.
    The parameters are references to the caller's frames; the function
    rebinds both names to copies before it writes the [period] column, and
    the model follows it: every write goes through the reference the name
    is bound to at that line. *)
Definition create_combined_data (current_data previous_data : ref)
    : M (ref * pynum * string * string) :=
  do delta <- get_delta_pct current_data previous_data;
  let '(delta_pct, curr_line_color, curr_line_color_bg) := delta in
  do prev_rows <- load previous_data;
  if decide (length prev_rows < 2)%nat then
    raise (ValueError "previous_data needs at least 2 rows.")
  else
    (* lines 191-195 *)
    do r2 <- iloc_neg2 prev_rows;
    do new_row <- alloc [mkRow (date_created r2) (CNum 0) (Some 0) None None];
    (* line 198 *)
    do new_rows <- load new_row;
    do cur_rows <- load current_data;
    do current_data <- alloc (new_rows ++ cur_rows);
    (* line 201 *)
    do prev_rows <- load previous_data;
    do previous_data <- alloc (removelast prev_rows);
    (* lines 204-205 *)
    (do rows <- load previous_data;
     update previous_data (set_period Previous <$> rows));;
    (do rows <- load current_data;
     update current_data (set_period Current <$> rows));;
    (* line 208 *)
    do prev_rows <- load previous_data;
    do cur_rows <- load current_data;
    do combined_data <- alloc (prev_rows ++ cur_rows);
    (* line 211 *)
    (do rows <- load combined_data;
     update combined_data ((λ r, set_count (to_numeric (count r)) r) <$> rows));;
    (* line 214 *)
    (do rows <- load combined_data;
     update combined_data
       (zip_with set_combined_cumsum rows
          (cumsum_col (fillna0 ∘ count <$> rows))));;
    ret (combined_data, delta_pct, curr_line_color, curr_line_color_bg).

(** The dashboard's use of the two, lines 575-582 and 598-599: the
    windows of the client frame, then the current window combined with
    the previous one. *)
Definition compare_current_previous (g : globals) (df : ref) (days : Z)
    : M (ref * pynum * string * string) :=
  do windows <- get_window_data g df days;
  let '(_, current_data, previous_data, _, _) := windows in
  create_combined_data current_data previous_data.

(** ** What the functions are observed through *)

(** A frame of dates and counts with its running sum in [cumsum]: what
    [assign_cumsum] leaves in the heap. *)
Definition with_cumsum (f : list (date * Z)) : DataFrame :=
  zip_with set_cumsum (to_rows f) (cumsum_col f.*2).

(** Number of events of the client frame on a day. *)
Definition events_on (rows : DataFrame) (d : date) : Z :=
  occurrences d (date_created <$> rows).

(** One row per day of a closed range, with the events of that day. *)
Definition all_counts (rows : DataFrame) (lo hi : date) : list (date * Z) :=
  (λ d, (d, events_on rows d)) <$> date_range lo hi.

(** One row per day of a closed range, with the events of that day
    except on the first day, whose count is 0. *)
Definition window_counts (rows : DataFrame) (lo hi : date) : list (date * Z) :=
  (λ d, (d, if decide (lo < d) then events_on rows d else 0)) <$> date_range lo hi.

(** The frames behind the five references [get_window_data] returns. *)
Definition deref5 (h : heap) (refs : ref * ref * ref * ref * ref)
    : option (DataFrame * DataFrame * DataFrame * DataFrame * DataFrame) :=
  let '(r0, r1, r2, r3, r4) := refs in
  f0 ← h !! r0; f1 ← h !! r1; f2 ← h !! r2; f3 ← h !! r3; f4 ← h !! r4;
  Some (f0, f1, f2, f3, f4).

(** A call of [get_window_data] seen by its caller: the frames
    [data, current_data, previous_data, previous_data2, previous_data3]
    it gets back, or the exception. *)
Definition window_frames (g : globals) (df : ref) (days : Z) (h : heap)
    : outcome (DataFrame * DataFrame * DataFrame * DataFrame * DataFrame) :=
  match get_window_data g df days h with
  | (Returned refs, h') =>
      match deref5 h' refs with
      | Some fs => Returned fs
      | None => Raised DanglingRef
      end
  | (Raised e, _) => Raised e
  end.

(** The count column read as numbers, NaN and non-numbers as 0. *)
Definition counts (f : DataFrame) : list Z := fillna0 ∘ count <$> f.

(** The synthetic row [create_combined_data] puts in front of the later
    window. *)
Definition anchor_row (d : date) : Row := mkRow d (CNum 0) (Some 0) None None.

(** The two writes on the combined frame: [count] made numeric, then
    [combined_cumsum] computed from it. *)
Definition with_combined_cumsum (f : DataFrame) : DataFrame :=
  let f := (λ r, set_count (to_numeric (count r)) r) <$> f in
  zip_with set_combined_cumsum f (cumsum_col (fillna0 ∘ count <$> f)).

(** A call of [create_combined_data] seen by its caller: the combined
    frame it gets back, or the exception. *)
Definition combined_frame (current_data previous_data : ref) (h : heap)
    : outcome DataFrame :=
  match create_combined_data current_data previous_data h with
  | (Returned (r, _, _, _), h') =>
      match h' !! r with
      | Some f => Returned f
      | None => Raised DanglingRef
      end
  | (Raised e, _) => Raised e
  end.

(** What a row of the combined frame keeps of the row it comes from. *)
Definition carried_over (r r' : Row) : Prop :=
  date_created r' = date_created r ∧ count r' = to_numeric (count r) ∧
  cumsum r' = cumsum r ∧ period r' = period r.

(** The rows of a frame tagged with a period. *)
Definition tagged (p : Period) (f : DataFrame) : DataFrame :=
  filter (λ r, period r = Some p) f.

(** ** Inputs used in the examples *)

(** A row of the client frame: only [date_created] matters. *)
Definition client (d : date) : Row := mkRow d CNaN None None None.

Definition example_globals : globals := mkGlobals 100 "secret".

Definition example_clients : DataFrame :=
  [client 100; client 99; client 99; client 97; client 93].

Definition example_heap : heap := [example_clients].

Definition example_later : DataFrame :=
  [mkRow 98 (CNum 0) (Some 0) None None;
   mkRow 99 (CNum 2) (Some 2) None None;
   mkRow 100 (CNum 1) (Some 3) None None].

Definition example_earlier : DataFrame :=
  [mkRow 96 (CNum 0) (Some 0) None None;
   mkRow 97 (CNum 1) (Some 1) None None;
   mkRow 98 (CNum 1) (Some 2) None None].

Definition example_windows : heap := [example_later; example_earlier].

(** One client a day on days 81 to 90, then on days 91 to 95. *)
Definition example_decline : DataFrame := client <$> seqZ 81 15.

(** ** Counting the clients of a range *)



(** The colours [get_delta_pct] picks for a delta. *)
Definition line_colors (delta_pct : pynum) : string * string :=
  if py_lt0 delta_pct then
    ("rgba(255, 43, 43, 0.1)"%string, "rgb(255, 43, 43)"%string)
  else
    ("rgba(33, 195, 84, 0.1)"%string, "rgb(21, 130, 55)"%string).




(** The two pairs of colours. *)
Definition red : string * string :=
  ("rgba(255, 43, 43, 0.1)"%string, "rgb(255, 43, 43)"%string).
Definition green : string * string :=
  ("rgba(33, 195, 84, 0.1)"%string, "rgb(21, 130, 55)"%string).


(** ** Appointments *)

(** One row of the appointment frame, with the columns [filter_data]
    reads.  [Date] is the day of the appointment ([Date.dt.date]); a
    missing [CancellationDate] (NaT), [Status] or [ServiceId] (NaN) is
    [None]; [Price] is a number as [calc_delta] takes them. *)
Record Appt := mkAppt {
  Date : date;
  CancellationDate : option date;
  Status : option string;
  ServiceId : option string;
  Price : pynum
}.

(** [col.sum()]: NaN is skipped, and the sum of no value is 0. *)
Definition series_sum (col : list pynum) : pynum :=
  Num (foldr Qplus 0%Q
         (omap (λ x, match x with Num q => Some q | NaN => None end) col)).

(** [filter_data(practitioner_appts, days)], lines 388-407.  The service
    with the fixed identifier is the follow-up appointment. *)
Definition filter_data (g : globals) (practitioner_appts : list Appt) (days : Z)
    : list Appt * list Appt * list Appt * list Appt * pynum * pynum :=
  let now := CURRENT_DATE g in
  let practitioner_appts :=
    filter (λ a, CancellationDate a = None ∧ Status a = Some "Confirmed"%string)
      practitioner_appts in
  let appts_this_year :=
    filter (λ a, now - days ≤ Date a) practitioner_appts in
  let appts_last_year :=
    filter (λ a, now - days * 2 ≤ Date a ∧ Date a < now - days)
      practitioner_appts in
  let new_appts_this_year :=
    filter (λ a, ¬ ServiceId a = Some "1efe2465-4741-48c8-8408-114818cdce74"%string)
      appts_this_year in
  let new_appts_last_year :=
    filter (λ a, ¬ ServiceId a = Some "1efe2465-4741-48c8-8408-114818cdce74"%string)
      appts_last_year in
  let follow_up_appts_this_year :=
    filter (λ a, ServiceId a = Some "1efe2465-4741-48c8-8408-114818cdce74"%string)
      appts_this_year in
  let follow_up_appts_last_year :=
    filter (λ a, ServiceId a = Some "1efe2465-4741-48c8-8408-114818cdce74"%string)
      appts_last_year in
  let total_paid_this_year := series_sum (Price <$> appts_this_year) in
  let total_paid_last_year := series_sum (Price <$> appts_last_year) in
  (new_appts_this_year, new_appts_last_year, follow_up_appts_this_year,
   follow_up_appts_last_year, total_paid_this_year, total_paid_last_year).

(** An appointment that counts: confirmed and not cancelled. *)
Definition kept (a : Appt) : Prop :=
  CancellationDate a = None ∧ Status a = Some "Confirmed"%string.

Definition follow_up (a : Appt) : Prop :=
  ServiceId a = Some "1efe2465-4741-48c8-8408-114818cdce74"%string.

Global Instance kept_dec a : Decision (kept a).
Proof. unfold kept. apply _. Defined.

Global Instance follow_up_dec a : Decision (follow_up a).
Proof. unfold follow_up. apply _. Defined.

(** Example appointments: a new one today, a follow-up in the future, a
    cancelled one, a new one and a follow-up in the period before, one
    that is too old. *)
Definition example_appts : list Appt :=
  [mkAppt 100 None (Some "Confirmed"%string) (Some "intake"%string) (Num 150);
   mkAppt 120 None (Some "Confirmed"%string)
     (Some "1efe2465-4741-48c8-8408-114818cdce74"%string) (Num 80);
   mkAppt 99 (Some 98) (Some "Confirmed"%string) (Some "intake"%string) (Num 150);
   mkAppt 95 None (Some "Confirmed"%string) None NaN;
   mkAppt 92 None (Some "Confirmed"%string)
     (Some "1efe2465-4741-48c8-8408-114818cdce74"%string) (Num 80);
   mkAppt 80 None (Some "Confirmed"%string) (Some "intake"%string) (Num 150)].

(** ** The charts *)

(** What the chart functions can raise. *)
Inductive chart_exn :=
  | UnboundLocalError (name : string)
  | TypeError.

Inductive attempt (A : Type) :=
  | Value (a : A)
  | Error (e : chart_exn).

Arguments Value {A} a.
Arguments Error {A} e.

Definition attempt_bind {A B} (m : attempt A) (k : A → attempt B) : attempt B :=
  match m with Value a => k a | Error e => Error e end.

Notation "'try' x <- m ; k" := (attempt_bind m (λ x, k))
  (at level 10, x name, m at level 100, k at level 200,
   format "'[v' 'try'  x  <-  m ; '/' k ']'").

(** A trace of a figure, with the arguments the source gives to
    [go.Scatter] and the template [update_traces] sets; an argument that
    is not given, or given as [None], is [None].  [marker] is
    [(size, color, line width, line color)]. *)
Module go.
Record Scatter := mkScatter {
  x : list date;
  y : list (option Z);
  text : list cell;
  mode : string;
  name : option string;
  fill : option string;
  fillcolor : option string;
  line_color : option string;
  marker : option (Z * string * Z * string);
  textposition : option string;
  hoverlabel_bordercolor : string;
  hovertemplate : option string
}.
Definition set_hovertemplate (s : string) (t : Scatter) : Scatter :=
  mkScatter (x t) (y t) (text t) (mode t) (name t) (fill t) (fillcolor t)
    (line_color t) (marker t) (textposition t) (hoverlabel_bordercolor t)
    (Some s).
End go.

(** A figure is the list of its traces, in the order they were added;
    its layout, which the source sets to the same constants for every
    figure, is left out. *)
Abbreviation Figure := (list go.Scatter).

(** A cell of [count] as a number or NaN, if it is one. *)
Definition cell_number (c : cell) : option (option Z) :=
  match c with
  | CNum z => Some (Some z)
  | CNaN => Some None
  | CObj => None
  end.

(** [frame['count'].max()]: the largest number of the column, NaN when
    it has none; comparing an object that is no number raises. *)
Definition count_max (f : DataFrame) : attempt pynum :=
  match mapM cell_number (count <$> f) with
  | Some col => Value (series_max col)
  | None => Error TypeError
  end.

Definition py_gt0 (v : pynum) : bool :=
  match v with
  | Num q => if Qlt_le_dec 0 q then true else false
  | NaN => false
  end.

(** [frame[frame['count'] > 0]]. *)
Definition positive (c : cell) : bool :=
  match c with CNum z => bool_decide (0 < z) | _ => false end.

Definition positive_counts (f : DataFrame) : DataFrame :=
  filter (λ r, positive (count r)) f.

(** [create_combined_chart(curr, prev, curr_line_color,
    curr_line_color_bg, markers, lines)], lines 219-338.  The local
    [prev_markers] is bound only where the previous line is drawn;
    [curr_markers] is bound again just before its only use. *)
Definition create_combined_chart (curr prev : DataFrame)
    (curr_line_color curr_line_color_bg : string) (markers lines : bool)
    : attempt Figure :=
  let fig : Figure := [] in
  let marker_size := 4 in
  (* current period line *)
  try curr_max <- count_max curr;
  let fig :=
    if py_gt0 curr_max && lines then
      fig ++ [go.mkScatter (date_created <$> curr) (cumsum <$> curr)
                (count <$> curr) "lines" (Some "Current Period"%string)
                (Some "tonexty"%string) (Some curr_line_color)
                (Some curr_line_color_bg) None None curr_line_color_bg None]
    else fig in
  (* previous period line *)
  try prev_max <- count_max prev;
  let fig :=
    if py_gt0 prev_max && lines then
      fig ++ [go.mkScatter (date_created <$> prev) (cumsum <$> prev)
                (count <$> prev) "lines" (Some "Previous Period"%string)
                (Some "tozeroy"%string) None (Some "lightgrey"%string)
                None None "grey" None]
    else fig in
  let prev_markers :=
    if py_gt0 prev_max && lines then Some (positive_counts prev) else None in
  (* the markers of the previous period *)
  try prev_max <- count_max prev;
  try fig <-
    (if py_gt0 prev_max && markers then
       match prev_markers with
       | Some prev_markers =>
           Value (fig ++ [go.mkScatter (date_created <$> prev_markers)
                            (cumsum <$> prev_markers) (count <$> prev_markers)
                            "markers" None None None None
                            (Some (marker_size, "white"%string, 1, "grey"%string))
                            (Some "top right"%string) "grey" None])
       | None => Error (UnboundLocalError "prev_markers")
       end
     else Value fig);
  (* the markers of the current period *)
  try curr_max <- count_max curr;
  let fig :=
    if py_gt0 curr_max && markers then
      let curr_markers := positive_counts curr in
      fig ++ [go.mkScatter (date_created <$> curr_markers)
                (cumsum <$> curr_markers) (count <$> curr_markers)
                "markers" None None None None
                (Some (marker_size, "white"%string, 1, "grey"%string))
                (Some "bottom left"%string) curr_line_color_bg None]
    else fig in
  let fig :=
    go.set_hovertemplate
      "Period Total: <b>%{y}</b><br>Onboarded: %{text}<br>%{x|%B %d, %Y}</b><extra></extra>"
      <$> fig in
  Value fig.

(** The calls of streamlit that show something: a chart with its key
    (size and toolbar settings are constants), or a metric with its
    label, its value and its delta.  The delta, which the source formats
    as a percentage with one decimal, is kept as the number
    [delta_pct]. *)
Inductive st_call :=
  | plotly_chart (fig : Figure) (key : string)
  | metric (label value : string) (delta_pct : pynum).

(** [generate_streamlit_chart(combined_data, show_markers, chart_id)],
    lines 340-354.  The two colours are not parameters: they are the
    module globals the dashboard last assigned. *)
Definition generate_streamlit_chart (curr_line_color curr_line_color_bg : string)
    (combined_data : DataFrame) (show_markers : bool) (chart_id : string)
    : attempt st_call :=
  let curr := filter (λ r, period r = Some Current) combined_data in
  let prev := filter (λ r, period r = Some Previous) combined_data in
  try fig <- create_combined_chart curr prev curr_line_color curr_line_color_bg
               show_markers true;
  Value (plotly_chart fig chart_id).

(** Whether a frame has a row with a count above 0. *)
Definition has_positive_count (f : DataFrame) : bool :=
  bool_decide (positive_counts f ≠ []).

(** ** What the dashboard shows of the onboarding analysis *)



(** What has been shown, and the exception that ended it, if any. *)
Abbreviation view := (list st_call * option chart_exn)%type.









(** ** The days pandas can hold *)

(** A [Timedelta] is a 64-bit number of nanoseconds, and a [Timestamp]
    is one counted from 1970-01-01, as the dates are here.  A whole
    number of days fits, as a duration or as a day at midnight, exactly
    when it lies between -106751 and 106751; outside,
    [pd.Timedelta(days=n)] and [pd.date_range] raise.  The integers of
    the embedding are unbounded: it follows the source within these
    bounds. *)
Definition pandas_days (n : Z) : Prop := -106751 ≤ n ≤ 106751.

(** What a trace plots, and in which colours: its mode and name, its x,
    y and text, the colour of its fill and of its line. *)
Definition trace_summary (t : go.Scatter)
    : string * option string * list date * list (option Z) * list cell
      * option string * option string :=
  (go.mode t, go.name t, go.x t, go.y t, go.text t,
   go.fillcolor t, go.line_color t).

(** * Properties *)

(** ** The pandas operations on small inputs *)

Example date_range_3 : date_range 10 12 = [10; 11; 12].
Proof. reflexivity. Qed.

Example date_range_backwards : date_range 12 10 = [].
Proof. reflexivity. Qed.

Example value_counts_ex :
  value_counts_sort_index [5; 3; 5; 4; 5; 3] = [(3, 2); (4, 1); (5, 3)].
Proof. vm_compute. reflexivity. Qed.

Example merge_ts_counts_ex :
  merge_ts_counts [1; 2; 3; 4] [(2, 7); (4, 1)] = [(1, 0); (2, 7); (3, 0); (4, 1)].
Proof. vm_compute. reflexivity. Qed.

Example merge_counts_ts_ex :
  merge_counts_ts [(2, 7); (3, 1)] [1; 2; 3] = [(1, 0); (2, 7); (3, 1)].
Proof. vm_compute. reflexivity. Qed.

Example cumsum_ex : cumsum_col [1; 0; 2; 5] = [1; 1; 3; 8].
Proof. reflexivity. Qed.

(** ** Sorted key columns *)

Section sorted_keys.

Lemma sorted_keys_ext (l k : list Z) :
  StronglySorted Z.le l → NoDup l →
  StronglySorted Z.le k → NoDup k →
  (∀ x, x ∈ l ↔ x ∈ k) → l = k.
Proof.
  intros Hl Hnl Hk Hnk Hel.
  apply (StronglySorted_unique Z.le); [done..|].
  by apply NoDup_Permutation.
Qed.

Lemma seqZ_sorted (m n : Z) : StronglySorted Z.le (seqZ m n).
Proof.
  destruct (decide (n ≤ 0)) as [Hn|Hn]; [rewrite seqZ_nil by done; constructor|].
  rewrite <- (Z2Nat.id n) by lia.
  generalize (Z.to_nat n) as len. clear n Hn. intros len. revert m.
  induction len as [|len IH]; intros m; [constructor|].
  rewrite seqZ_cons by lia.
  replace (Z.pred (Z.of_nat (S len))) with (Z.of_nat len) by lia.
  constructor; [apply IH|].
  apply Forall_seqZ. lia.
Qed.

Lemma date_range_sorted s e : StronglySorted Z.le (date_range s e).
Proof. apply seqZ_sorted. Qed.

Lemma date_range_NoDup s e : NoDup (date_range s e).
Proof. apply NoDup_seqZ. Qed.

Lemma elem_of_date_range s e d : d ∈ date_range s e ↔ s ≤ d ≤ e.
Proof. unfold date_range. rewrite elem_of_seqZ. lia. Qed.

Lemma outer_keys_sorted lk rk : StronglySorted Z.le (outer_keys lk rk).
Proof.
  apply (Sorted_StronglySorted _), (Sorted_merge_sort _).
Qed.

Lemma outer_keys_NoDup lk rk : NoDup (outer_keys lk rk).
Proof.
  unfold outer_keys. rewrite merge_sort_Permutation. apply NoDup_remove_dups.
Qed.

Lemma elem_of_outer_keys lk rk k :
  k ∈ outer_keys lk rk ↔ k ∈ lk ∨ k ∈ rk.
Proof.
  unfold outer_keys.
  by rewrite merge_sort_Permutation, elem_of_remove_dups, elem_of_app.
Qed.

(** When one side already holds every key, sorted and without
    repetition, the join keys are that side's keys. *)
Lemma outer_keys_l ts rk :
  StronglySorted Z.le ts → NoDup ts → rk ⊆ ts → outer_keys ts rk = ts.
Proof.
  intros Hs Hn Hsub.
  apply sorted_keys_ext; auto using outer_keys_sorted, outer_keys_NoDup.
  intros k. rewrite elem_of_outer_keys. specialize (Hsub k). tauto.
Qed.

Lemma outer_keys_r lk ts :
  StronglySorted Z.le ts → NoDup ts → lk ⊆ ts → outer_keys lk ts = ts.
Proof.
  intros Hs Hn Hsub.
  apply sorted_keys_ext; auto using outer_keys_sorted, outer_keys_NoDup.
  intros k. rewrite elem_of_outer_keys. specialize (Hsub k). tauto.
Qed.

End sorted_keys.

(** ** Outer merges in closed form *)

Section merge_closed_form.
Context {A : Type}.

Lemma filter_none {X} (P : X → Prop) `{∀ x, Decision (P x)} (l : list X) :
  (∀ x, x ∈ l → ¬ P x) → filter P l = [].
Proof.
  induction l as [|x l IH]; [done|]. intros Hl.
  rewrite filter_cons_False by (apply Hl; left).
  apply IH. intros y Hy. apply Hl. by right.
Qed.

Lemma filter_key_absent (f : list (date * A)) k :
  k ∉ f.*1 → filter (λ x, x.1 = k) f = [].
Proof.
  intros Hk. induction f as [|[d a] f IH]; [done|].
  rewrite filter_cons. simpl in *.
  rewrite not_elem_of_cons in Hk. destruct Hk as [Hne Hk].
  rewrite decide_False by done. auto.
Qed.

Lemma filter_key_unique (f : list (date * A)) k :
  NoDup f.*1 →
  filter (λ x, x.1 = k) f
  = match value_at k f with Some a => [(k, a)] | None => [] end.
Proof.
  unfold value_at. induction f as [|[d a] f IH]; [done|].
  simpl. intros [Hd Hn]%NoDup_cons. rewrite filter_cons. simpl.
  destruct (decide (d = k)) as [->|Hne]; simpl.
  - by rewrite filter_key_absent.
  - auto.
Qed.

Lemma value_at_fmap (c : date → A) (K : list date) k :
  value_at k ((λ d, (d, c d)) <$> K) = if decide (k ∈ K) then Some (c k) else None.
Proof.
  unfold value_at. induction K as [|d K IH]; [done|].
  rewrite fmap_cons, filter_cons. simpl.
  destruct (decide (d = k)) as [->|Hne]; simpl.
  - rewrite decide_True by left. done.
  - rewrite IH. destruct (decide (k ∈ K)) as [Hin|Hin].
    + rewrite decide_True by (by right). done.
    + rewrite decide_False; [done|]. rewrite elem_of_cons. intros [?|?]; auto.
Qed.

Lemma value_at_filter (P : date → Prop) `{∀ d, Decision (P d)}
    (f : list (date * A)) k :
  value_at k (filter (λ x, P x.1) f) = if decide (P k) then value_at k f else None.
Proof.
  unfold value_at. rewrite list_filter_filter.
  destruct (decide (P k)) as [HP|HP].
  - f_equal. f_equal. apply list_filter_iff. intros x. split; [tauto|].
    intros Hx. split; [done|]. by rewrite Hx.
  - rewrite filter_none; [done|]. intros x _ [Hx HPx]. by rewrite Hx in HPx.
Qed.

Lemma fmap_key_frame (K : list date) : (key_frame K).*1 = K.
Proof.
  unfold key_frame. induction K as [|d K IH]; [done|].
  rewrite !fmap_cons. simpl. by rewrite IH.
Qed.

End merge_closed_form.

Section merge_lemmas.

Lemma bind_singletons {X Y} (f : X → list Y) (g : X → Y) (l : list X) :
  (∀ x, x ∈ l → f x = [g x]) → l ≫= f = g <$> l.
Proof.
  induction l as [|x l IH]; [done|]. intros Hf.
  rewrite bind_cons, fmap_cons, Hf by left. simpl. f_equal.
  apply IH. intros y Hy. apply Hf. by right.
Qed.

Lemma filter_key_frame ts k :
  NoDup ts → k ∈ ts → filter (λ x, x.1 = k) (key_frame ts) = [(k, ())].
Proof.
  intros Hn Hk. rewrite filter_key_unique by (by rewrite fmap_key_frame).
  unfold key_frame. rewrite (value_at_fmap (λ _, ())).
  by rewrite decide_True.
Qed.

(** [ts.merge(counts, how='outer').fillna(0)] when [ts] is a sorted
    range of distinct dates holding every key of [counts]: one row per
    date of [ts], with the count of that date, 0 when there is none. *)
Lemma merge_ts_counts_closed ts (counts : list (date * Z)) :
  StronglySorted Z.le ts → NoDup ts →
  NoDup counts.*1 → counts.*1 ⊆ ts →
  merge_ts_counts ts counts
  = (λ d, (d, default 0 (value_at d counts))) <$> ts.
Proof.
  intros Hs Hn Hc Hsub. unfold merge_ts_counts, merge_outer.
  rewrite fmap_key_frame, outer_keys_l by done.
  rewrite (bind_singletons _ (λ k, (k, Some (), value_at k counts))).
  - rewrite <- list_fmap_compose. done.
  - intros k Hk. rewrite filter_key_frame by done.
    rewrite (filter_key_unique counts) by done.
    by destruct (value_at k counts).
Qed.

Lemma merge_counts_ts_closed (counts : list (date * Z)) ts :
  StronglySorted Z.le ts → NoDup ts →
  NoDup counts.*1 → counts.*1 ⊆ ts →
  merge_counts_ts counts ts
  = (λ d, (d, default 0 (value_at d counts))) <$> ts.
Proof.
  intros Hs Hn Hc Hsub. unfold merge_counts_ts, merge_outer.
  rewrite fmap_key_frame, outer_keys_r by done.
  rewrite (bind_singletons _ (λ k, (k, value_at k counts, Some ()))).
  - rewrite <- list_fmap_compose. done.
  - intros k Hk. rewrite filter_key_frame by done.
    rewrite (filter_key_unique counts) by done.
    by destruct (value_at k counts).
Qed.

Lemma value_counts_keys col :
  (value_counts_sort_index col).*1 = merge_sort Z.le (remove_dups col).
Proof.
  unfold value_counts_sort_index.
  generalize (merge_sort Z.le (remove_dups col)) as K. intros K.
  induction K as [|d K IH]; [done|]. rewrite !fmap_cons. simpl. by rewrite IH.
Qed.

Lemma value_counts_NoDup col : NoDup (value_counts_sort_index col).*1.
Proof.
  rewrite value_counts_keys, merge_sort_Permutation. apply NoDup_remove_dups.
Qed.

Lemma elem_of_value_counts_keys col k :
  k ∈ (value_counts_sort_index col).*1 ↔ k ∈ col.
Proof.
  by rewrite value_counts_keys, merge_sort_Permutation, elem_of_remove_dups.
Qed.

Lemma occurrences_absent k col : k ∉ col → occurrences k col = 0.
Proof.
  intros Hk. unfold occurrences. rewrite filter_none; [done|].
  intros x Hx ->. done.
Qed.

(** The count [value_counts] holds for a date is the number of events
    on that date; a date without events has no row. *)
Lemma value_at_value_counts col k :
  default 0 (value_at k (value_counts_sort_index col)) = occurrences k col.
Proof.
  unfold value_counts_sort_index.
  rewrite (value_at_fmap (λ d, occurrences d col)).
  destruct (decide _) as [Hin|Hin]; [done|]. simpl.
  rewrite occurrences_absent; [done|].
  by rewrite merge_sort_Permutation, elem_of_remove_dups in Hin.
Qed.

End merge_lemmas.

(** ** Running the heap operations *)

Section heap_lemmas.
Implicit Types (h : heap).

Lemma lookup_tail {X} (h l : list X) i : (h ++ l) !! (length h + i)%nat = l !! i.
Proof. by rewrite lookup_app_r, Nat.add_sub' by lia. Qed.

Lemma run_load r (f : DataFrame) h {A} (k : DataFrame → M A) :
  h !! r = Some f → bind (load r) k h = k f h.
Proof. intros Hr. unfold bind, load. by rewrite Hr. Qed.

Lemma run_alloc (f : DataFrame) h {A} (k : ref → M A) :
  bind (alloc f) k h = k (length h) (h ++ [f]).
Proof. done. Qed.

Lemma run_update r (f f' : DataFrame) h {A} (k : unit → M A) :
  h !! r = Some f → bind (update r f') k h = k () (<[r := f']> h).
Proof. intros Hr. unfold bind, update. by rewrite Hr. Qed.

Lemma numeric_to_rows f : mapM numeric (count <$> to_rows f) = Some f.*2.
Proof.
  unfold to_rows. induction f as [|[d c] f IH]; [done|].
  rewrite !fmap_cons. simpl. rewrite IH. done.
Qed.

Lemma run_assign_cumsum r f h {A} (k : unit → M A) :
  h !! r = Some (to_rows f) →
  bind (assign_cumsum r) k h = k () (<[r := with_cumsum f]> h).
Proof.
  intros Hr. unfold assign_cumsum.
  unfold bind at 1. rewrite (run_load r (to_rows f)) by done.
  rewrite numeric_to_rows. unfold update. rewrite Hr. done.
Qed.
End heap_lemmas.

(** ** The frames of [get_window_data] in closed form *)

Section window_lemmas.

Lemma filter_sorted (P : Z → Prop) `{∀ d, Decision (P d)} (l : list Z) :
  StronglySorted Z.le l → StronglySorted Z.le (filter P l).
Proof.
  induction 1 as [|x l Hl IH Hx]; [constructor|].
  rewrite filter_cons. destruct (decide (P x)); [|done].
  constructor; [done|].
  apply Forall_forall. intros y [_ Hy]%list_elem_of_filter.
  by eapply Forall_forall in Hx.
Qed.

Lemma filter_date_range lo hi a b :
  (lo < hi → a ≤ lo + 1 ∧ hi ≤ b) →
  filter (λ d, lo < d ∧ d ≤ hi) (date_range a b) = date_range (lo + 1) hi.
Proof.
  intros Hab. apply sorted_keys_ext.
  - apply filter_sorted, date_range_sorted.
  - apply NoDup_filter, date_range_NoDup.
  - apply date_range_sorted.
  - apply date_range_NoDup.
  - intros d. rewrite list_elem_of_filter, !elem_of_date_range. lia.
Qed.

Lemma filter_slice {A} lo hi (c : date → A) (K : list date) :
  filter (λ r : date * A, lo < r.1 ∧ r.1 ≤ hi) ((λ d, (d, c d)) <$> K)
  = (λ d, (d, c d)) <$> filter (λ d, lo < d ∧ d ≤ hi) K.
Proof.
  induction K as [|d K IH]; [done|].
  rewrite fmap_cons, !filter_cons, IH. simpl.
  by destruct (decide (lo < d ∧ d ≤ hi)).
Qed.

Lemma fmap_keys {A} (c : date → A) (K : list date) :
  ((λ d, (d, c d)) <$> K).*1 = K.
Proof.
  induction K as [|d K IH]; [done|]. rewrite !fmap_cons. simpl. by rewrite IH.
Qed.

Lemma occurrences_between lo hi (rows : DataFrame) d :
  lo ≤ d ≤ hi →
  occurrences d
    (date_created <$>
       filter (λ r, lo ≤ date_created r ∧ date_created r ≤ hi) rows)
  = events_on rows d.
Proof.
  intros HP. unfold events_on, occurrences. f_equal.
  induction rows as [|r rows IH]; [done|].
  rewrite filter_cons. destruct (decide _) as [Hr|Hr].
  - rewrite !fmap_cons, !filter_cons. destruct (decide _); simpl; by rewrite IH.
  - rewrite fmap_cons, filter_cons. rewrite decide_False; [done|].
    intros Heq. apply Hr. by rewrite Heq.
Qed.

(** Line 107: the frame [data], one row per day of the whole range. *)
Lemma data_closed rows lo hi :
  merge_ts_counts (date_range lo hi)
    (value_counts_sort_index
       (date_created <$>
          filter (λ r, lo ≤ date_created r ∧ date_created r ≤ hi) rows))
  = all_counts rows lo hi.
Proof.
  rewrite merge_ts_counts_closed.
  - unfold all_counts. apply list_fmap_ext. intros i d Hd.
    apply list_elem_of_lookup_2, elem_of_date_range in Hd.
    rewrite value_at_value_counts. f_equal.
    by apply occurrences_between.
  - apply date_range_sorted.
  - apply date_range_NoDup.
  - apply value_counts_NoDup.
  - intros d. rewrite elem_of_value_counts_keys, elem_of_date_range.
    rewrite list_elem_of_fmap. intros (r & -> & Hr).
    by apply list_elem_of_filter in Hr as [Hr _].
Qed.

(** Lines 111 and 125 (and their siblings): the half-open slice of
    [data] merged back onto the closed range of the window. *)
Lemma window_closed rows a b lo hi :
  (lo ≤ hi → a ≤ lo ∧ hi ≤ b) →
  merge_counts_ts
    (filter (λ r, lo < r.1 ∧ r.1 ≤ hi) (all_counts rows a b))
    (date_range lo hi)
  = window_counts rows lo hi.
Proof.
  intros Hab. unfold all_counts.
  rewrite filter_slice.
  rewrite merge_counts_ts_closed.
  - unfold window_counts. apply list_fmap_ext. intros i d Hd.
    apply list_elem_of_lookup_2, elem_of_date_range in Hd.
    f_equal. rewrite value_at_fmap.
    destruct (decide (lo < d)) as [Hlo|Hlo].
    + rewrite decide_True; [done|].
      rewrite list_elem_of_filter, elem_of_date_range. lia.
    + rewrite decide_False; [done|].
      rewrite list_elem_of_filter. lia.
  - apply date_range_sorted.
  - apply date_range_NoDup.
  - rewrite fmap_keys. apply NoDup_filter, date_range_NoDup.
  - rewrite fmap_keys. intros d.
    rewrite list_elem_of_filter, !elem_of_date_range. lia.
Qed.

(** Line 122: the oldest slice, which is not merged back. *)
Lemma open_slice_closed rows a b lo hi :
  (lo < hi → a ≤ lo + 1 ∧ hi ≤ b) →
  filter (λ r, lo < r.1 ∧ r.1 ≤ hi) (all_counts rows a b)
  = all_counts rows (lo + 1) hi.
Proof.
  intros Hab. unfold all_counts.
  rewrite filter_slice.
  by rewrite filter_date_range.
Qed.

End window_lemmas.

(** ** Running [get_window_data] *)

Section run_get_window_data.
Variables (g : globals) (h : heap) (df : ref) (rows : DataFrame) (days : Z).
Hypothesis Hdf : h !! df = Some rows.

Let a := CURRENT_DATE g.

(** The whole call: five new frames, appended to the heap in the
    order in which the function builds them. *)
Lemma get_window_data_run :
  get_window_data g df days h =
   (Returned (length h, length h + 2, length h + 3, length h + 4,
              length h + 1)%nat,
    h ++ [with_cumsum (all_counts rows (a - days * 4) a);
          with_cumsum (all_counts rows (a - days * 4 + 1) (a - days * 3));
          with_cumsum (window_counts rows (a - days) a);
          with_cumsum (window_counts rows (a - days * 2) (a - days));
          with_cumsum (window_counts rows (a - days * 3) (a - days * 2))]).
Proof.
  unfold get_window_data. cbv zeta. fold a.
  rewrite (run_load df rows) by done.
  rewrite !data_closed.
  rewrite !window_closed by lia.
  rewrite open_slice_closed by lia.
  rewrite !run_alloc.
  rewrite !length_app. simpl length. rewrite <- !app_assoc. simpl app.
  rewrite <- !Nat.add_assoc. simpl Nat.add.
  erewrite (run_assign_cumsum (length h)); [|by apply list_lookup_middle].
  rewrite insert_app_r_alt, Nat.sub_diag by lia. simpl.
  erewrite (run_assign_cumsum (length h + 2)); [|by rewrite lookup_tail].
  rewrite insert_app_r. simpl.
  erewrite (run_assign_cumsum (length h + 3)); [|by rewrite lookup_tail].
  rewrite insert_app_r. simpl.
  erewrite (run_assign_cumsum (length h + 4)); [|by rewrite lookup_tail].
  rewrite insert_app_r. simpl.
  erewrite (run_assign_cumsum (length h + 1)); [|by rewrite lookup_tail].
  rewrite insert_app_r. simpl.
  reflexivity.
Qed.

Lemma window_frames_run :
  window_frames g df days h =
    Returned
      (with_cumsum (all_counts rows (a - days * 4) a),
       with_cumsum (window_counts rows (a - days) a),
       with_cumsum (window_counts rows (a - days * 2) (a - days)),
       with_cumsum (window_counts rows (a - days * 3) (a - days * 2)),
       with_cumsum (all_counts rows (a - days * 4 + 1) (a - days * 3))).
Proof.
  unfold window_frames. rewrite get_window_data_run. unfold deref5.
  rewrite (list_lookup_middle h _ _ (length h) eq_refl).
  rewrite !lookup_tail. done.
Qed.

End run_get_window_data.

(** ** Running sums *)

Section running_sums.

Lemma length_cumsum_from acc col : length (cumsum_from acc col) = length col.
Proof. revert acc. induction col as [|x col IH]; intros acc; simpl; auto. Qed.

Lemma length_cumsum_col col : length (cumsum_col col) = length col.
Proof. apply length_cumsum_from. Qed.

Lemma lookup_cumsum_from acc col i :
  (i < length col)%nat →
  cumsum_from acc col !! i = Some (acc + sum_col (take (S i) col)).
Proof.
  revert acc i. induction col as [|x col IH]; intros acc i Hi; simpl in *; [lia|].
  destruct i as [|i]; simpl.
  - f_equal. unfold sum_col. simpl. lia.
  - rewrite IH by lia. f_equal. unfold sum_col. simpl. lia.
Qed.

(** The running sum at a position is the sum of the column from its
    first entry through that position. *)
Lemma lookup_cumsum_col col i :
  (i < length col)%nat →
  cumsum_col col !! i = Some (sum_col (take (S i) col)).
Proof.
  intros Hi. unfold cumsum_col. rewrite lookup_cumsum_from by done.
  f_equal.
Qed.

Lemma fmap_zip_with_l {X Y} (f : Row → X) (set : Row → Y → Row)
    (l : DataFrame) (k : list Y) :
  (∀ r y, f (set r y) = f r) → length l = length k →
  f <$> zip_with set l k = f <$> l.
Proof.
  intros Hf. revert k. induction l as [|r l IH]; intros [|y k] Hlen;
    simpl in *; try done.
  rewrite Hf. f_equal. apply IH. lia.
Qed.

Lemma fmap_zip_with_r {X Y} (f : Row → X) (inj : Y → X) (set : Row → Y → Row)
    (l : DataFrame) (k : list Y) :
  (∀ r y, f (set r y) = inj y) → length l = length k →
  f <$> zip_with set l k = inj <$> k.
Proof.
  intros Hf. revert k. induction l as [|r l IH]; intros [|y k] Hlen;
    simpl in *; try done.
  rewrite Hf. f_equal. apply IH. lia.
Qed.

Lemma length_to_rows f : length (to_rows f) = length f.
Proof. unfold to_rows. by rewrite length_fmap. Qed.

Lemma with_cumsum_lengths f : length (to_rows f) = length (cumsum_col f.*2).
Proof. by rewrite length_to_rows, length_cumsum_col, length_fmap. Qed.

Lemma length_with_cumsum f : length (with_cumsum f) = length f.
Proof.
  unfold with_cumsum. rewrite length_zip_with_l_eq.
  - apply length_to_rows.
  - apply with_cumsum_lengths.
Qed.

Lemma dates_with_cumsum f : date_created <$> with_cumsum f = f.*1.
Proof.
  unfold with_cumsum.
  rewrite fmap_zip_with_l; [|done|apply with_cumsum_lengths].
  unfold to_rows. rewrite <- list_fmap_compose. done.
Qed.





Lemma all_counts_dates rows lo hi : (all_counts rows lo hi).*1 = date_range lo hi.
Proof. apply fmap_keys. Qed.

Lemma window_counts_dates rows lo hi :
  (window_counts rows lo hi).*1 = date_range lo hi.
Proof. apply fmap_keys. Qed.

Lemma length_date_range lo hi : length (date_range lo hi) = Z.to_nat (hi - lo + 1).
Proof. apply length_seqZ. Qed.

End running_sums.

(** ** The windows of [get_window_data] *)

Section windows.
Variable rows : DataFrame.



End windows.

(** ** Claims about [get_window_data] *)

(** C1.  The claim asks for [days + 1] consecutive days in each of the
    four windows.  For every client frame and every [days >= 1] the call
    returns; [current_data], [previous_data] and [previous_data2] hold
    exactly the [days + 1] consecutive days of their closed range; but
    [previous_data3], which is never merged with [ts_prev3], holds only
    the [days] consecutive days after [CURRENT_DATE - 4 * days]. *)
Theorem get_window_data_row_counts g h df rows days :
  h !! df = Some rows → 1 ≤ days →
  ∃ data cur prev prev2 prev3,
    window_frames g df days h = Returned (data, cur, prev, prev2, prev3) ∧
    date_created <$> cur = seqZ (CURRENT_DATE g - days) (days + 1) ∧
    date_created <$> prev = seqZ (CURRENT_DATE g - days * 2) (days + 1) ∧
    date_created <$> prev2 = seqZ (CURRENT_DATE g - days * 3) (days + 1) ∧
    length cur = Z.to_nat (days + 1) ∧
    length prev = Z.to_nat (days + 1) ∧
    length prev2 = Z.to_nat (days + 1) ∧
    date_created <$> prev3 = seqZ (CURRENT_DATE g - days * 4 + 1) days ∧
    length prev3 = Z.to_nat days.
Proof.
  intros Hdf Hdays. do 5 eexists.
  split; [by apply window_frames_run|].
  rewrite !dates_with_cumsum, !length_with_cumsum.
  rewrite !window_counts_dates, !all_counts_dates.
  unfold window_counts, all_counts. rewrite !length_fmap, !length_date_range.
  unfold date_range.
  repeat split; f_equal; lia.
Qed.



(** C7, as amended.  [get_window_data] does not check [days].  For every
    [days < 1] that pandas can hold (the duration [4 * days], and the
    days [CURRENT_DATE] and [CURRENT_DATE - 4 * days]) it raises nothing
    and returns its five frames.  They are all empty when [days < 0].
    For [days = 0] the frame [data] and the first three windows have one
    row, for [CURRENT_DATE], with count 0 in the windows, and the oldest
    window has none. *)
Theorem get_window_data_never_raises g h df rows days :
  h !! df = Some rows → days < 1 →
  pandas_days (days * 4) → pandas_days (CURRENT_DATE g) →
  pandas_days (CURRENT_DATE g - days * 4) →
  let a := CURRENT_DATE g in
  ∃ data cur prev prev2 prev3,
    window_frames g df days h = Returned (data, cur, prev, prev2, prev3) ∧
    (days < 0 →
     data = [] ∧ cur = [] ∧ prev = [] ∧ prev2 = [] ∧ prev3 = []) ∧
    (days = 0 →
     data = [mkRow a (CNum (events_on rows a)) (Some (events_on rows a))
               None None] ∧
     cur = [mkRow a (CNum 0) (Some 0) None None] ∧
     prev = [mkRow a (CNum 0) (Some 0) None None] ∧
     prev2 = [mkRow a (CNum 0) (Some 0) None None] ∧
     prev3 = []).
Proof.
  intros Hdf Hdays _ _ _ a. do 5 eexists.
  split; [by apply window_frames_run|]. fold a. split.
  - intros Hneg. unfold window_counts, all_counts, date_range.
    rewrite !seqZ_nil by lia. done.
  - intros ->. unfold window_counts, all_counts, date_range.
    replace (a - 0 * 4) with a by lia.
    replace (a - 0 * 3) with a by lia.
    replace (a - 0 * 2) with a by lia.
    replace (a - 0) with a by lia.
    replace (a - a + 1) with 1 by lia.
    rewrite (seqZ_nil (a + 1)) by lia.
    change (seqZ a 1) with [a]. cbn [fmap list_fmap].
    rewrite decide_False by lia. done.
Qed.



(** ** [calc_delta] *)

Section calc_delta_lemmas.

Lemma is_zero_Num q : is_zero (Num q) = true ↔ (q == 0)%Q.
Proof. apply Qeq_bool_iff. Qed.

Lemma is_zero_Num_false q : ¬ (q == 0)%Q → is_zero (Num q) = false.
Proof.
  intros Hq. destruct (is_zero (Num q)) eqn:E; [|done].
  by apply is_zero_Num in E.
Qed.

(** The guard on [prev] keeps the division away from a zero divisor. *)
Lemma calc_delta_total curr prev : ∃ v, calc_delta curr prev = Returned v.
Proof.
  unfold calc_delta. destruct (is_zero prev) eqn:Hp.
  - destruct (is_zero curr); eauto.
  - destruct prev as [p|]; simpl in *; [|eauto].
    rewrite Hp. destruct (py_sub curr (Num p)); eauto.
Qed.

End calc_delta_lemmas.

(** C3.  The delta policy: 0.0 for 0 against 0; 1.0 for a positive value
    against 0; [(curr - prev) / prev] for every nonzero baseline, which is
    1/2 for 150 against 100 and -1/2 for 50 against 100; and no pair of
    arguments, a zero baseline included, makes the function raise. *)
Theorem calc_delta_policy :
  calc_delta (Num 0) (Num 0) = Returned (Num 0) ∧
  (∀ x, (0 < x)%Q → calc_delta (Num x) (Num 0) = Returned (Num 1)) ∧
  (∀ curr prev, ¬ (prev == 0)%Q →
     calc_delta (Num curr) (Num prev) = Returned (Num ((curr - prev) / prev))) ∧
  (∃ q, calc_delta (Num 150) (Num 100) = Returned (Num q) ∧ (q == 1 # 2)%Q) ∧
  (∃ q, calc_delta (Num 50) (Num 100) = Returned (Num q) ∧ (q == - (1 # 2))%Q) ∧
  (∀ curr prev, ∃ v, calc_delta curr prev = Returned v).
Proof.
  split_and!.
  - reflexivity.
  - intros x Hx. unfold calc_delta.
    assert (is_zero (Num 0) = true) as -> by reflexivity.
    rewrite is_zero_Num_false; [done|].
    intros Heq. rewrite Heq in Hx. by apply Qlt_irrefl in Hx.
  - intros curr prev Hp. unfold calc_delta.
    pose proof (is_zero_Num_false prev Hp) as Hz. rewrite Hz.
    simpl in *. by rewrite Hz.
  - eexists. split; [reflexivity|]. reflexivity.
  - eexists. split; [reflexivity|]. reflexivity.
  - apply calc_delta_total.
Qed.

(** C10.  Against a zero baseline every nonzero later value, negative
    ones included, gives exactly 1.0. *)
Theorem calc_delta_zero_baseline curr :
  ¬ (curr == 0)%Q → calc_delta (Num curr) (Num 0) = Returned (Num 1).
Proof.
  intros Hc. unfold calc_delta.
  assert (is_zero (Num 0) = true) as -> by reflexivity.
  by rewrite is_zero_Num_false.
Qed.

(** ** Running [create_combined_data] *)

Ltac heap_norm :=
  rewrite ?length_app; cbn [length]; rewrite <- ?app_assoc; cbn [app];
  rewrite <- ?Nat.add_assoc; cbn [Nat.add].

Lemma bind_assoc {X Y Z} (m : M X) (k : X → M Y) (k' : Y → M Z) (h : heap) :
  bind (bind m k) k' h = bind m (λ x, bind (k x) k') h.
Proof. unfold bind. by destruct (m h) as [[x|e] h']. Qed.

Section run_create_combined_data.
Variables (h : heap) (current_data previous_data : ref) (C P : DataFrame).
Hypothesis HC : h !! current_data = Some C.
Hypothesis HP : h !! previous_data = Some P.

Lemma get_delta_pct_run :
  ∃ res, get_delta_pct current_data previous_data h = (Returned res, h).
Proof.
  unfold get_delta_pct.
  rewrite (run_load current_data C) by done.
  rewrite (run_load previous_data P) by done.
  destruct (calc_delta_total (series_max (cumsum <$> C))
              (series_max (cumsum <$> P))) as [v Hv].
  unfold bind, lift. rewrite Hv.
  destruct (py_lt0 v); unfold ret; eauto.
Qed.

Lemma iloc_neg2_run :
  (2 ≤ length P)%nat →
  ∃ r2, P !! (length P - 2)%nat = Some r2 ∧ iloc_neg2 P = ret r2.
Proof.
  intros Hlen. unfold iloc_neg2.
  destruct (rev P) as [|r1 [|r2 t]] eqn:Hrev.
  - apply (f_equal length) in Hrev. rewrite length_rev in Hrev.
    simpl in Hrev. lia.
  - apply (f_equal length) in Hrev. rewrite length_rev in Hrev.
    simpl in Hrev. lia.
  - exists r2. split; [|done].
    apply (f_equal (@rev Row)) in Hrev. rewrite rev_involutive in Hrev.
    simpl in Hrev. rewrite Hrev, <- !app_assoc. cbn [app].
    generalize (rev t) as l. intros l. rewrite length_app.
    replace (length l + length [r2; r1] - 2)%nat with (length l + 0)%nat
      by (simpl; lia).
    by rewrite lookup_tail.
Qed.

(** Fewer than two rows: the call raises before it builds or writes
    anything. *)
Lemma create_combined_data_short :
  (length P < 2)%nat →
  create_combined_data current_data previous_data h
  = (Raised (ValueError "previous_data needs at least 2 rows."), h).
Proof.
  intros Hlen. unfold create_combined_data.
  destruct get_delta_pct_run as [[[delta c1] c2] Hd].
  unfold bind at 1. rewrite Hd.
  rewrite (run_load previous_data P) by done.
  by rewrite decide_True.
Qed.

(** Two rows or more: four new frames, the last of them the combined
    frame that is returned. *)
Lemma create_combined_data_run r2 :
  (2 ≤ length P)%nat → P !! (length P - 2)%nat = Some r2 →
  ∃ delta c1 c2,
    create_combined_data current_data previous_data h
    = (Returned ((length h + 3)%nat, delta, c1, c2),
       h ++ [[anchor_row (date_created r2)];
             set_period Current <$> anchor_row (date_created r2) :: C;
             set_period Previous <$> removelast P;
             with_combined_cumsum
               ((set_period Previous <$> removelast P) ++
                (set_period Current <$> anchor_row (date_created r2) :: C))]).
Proof.
  intros Hlen Hr2. unfold create_combined_data.
  destruct get_delta_pct_run as [[[delta c1] c2] Hd].
  exists delta, c1, c2.
  unfold bind at 1. rewrite Hd.
  rewrite (run_load previous_data P) by done.
  rewrite decide_False by lia.
  destruct (iloc_neg2_run Hlen) as (r2' & Hr2' & ->).
  assert (r2' = r2) as -> by congruence.
  unfold bind at 1, ret at 1.
  rewrite run_alloc.
  rewrite (run_load (length h) [anchor_row (date_created r2)])
    by (by apply list_lookup_middle).
  rewrite (run_load current_data C) by (by apply lookup_app_l_Some).
  rewrite run_alloc. heap_norm.
  rewrite (run_load previous_data P) by (by apply lookup_app_l_Some).
  rewrite run_alloc. heap_norm.
  rewrite bind_assoc.
  rewrite (run_load (length h + 2) (removelast P)) by (by rewrite lookup_tail).
  erewrite run_update by (by rewrite lookup_tail).
  rewrite insert_app_r. cbn [list_insert Nat.add].
  rewrite bind_assoc.
  erewrite (run_load (length h + 1)) by (by rewrite lookup_tail).
  erewrite run_update by (by rewrite lookup_tail).
  rewrite insert_app_r. cbn [list_insert Nat.add].
  erewrite (run_load (length h + 2)) by (by rewrite lookup_tail).
  erewrite (run_load (length h + 1)) by (by rewrite lookup_tail).
  rewrite run_alloc. heap_norm.
  rewrite bind_assoc.
  erewrite (run_load (length h + 3)) by (by rewrite lookup_tail).
  erewrite run_update by (by rewrite lookup_tail).
  rewrite insert_app_r. cbn [list_insert Nat.add].
  rewrite bind_assoc.
  erewrite (run_load (length h + 3)) by (by rewrite lookup_tail).
  erewrite run_update by (by rewrite lookup_tail).
  rewrite insert_app_r. cbn [list_insert Nat.add].
  reflexivity.
Qed.

End run_create_combined_data.

(** ** The combined frame *)

Section combined_lemmas.

Lemma fillna0_to_numeric c : fillna0 (to_numeric c) = fillna0 c.
Proof. by destruct c. Qed.

Lemma length_with_combined_cumsum f : length (with_combined_cumsum f) = length f.
Proof.
  unfold with_combined_cumsum. rewrite length_zip_with_l_eq.
  - by rewrite length_fmap.
  - by rewrite length_cumsum_col, !length_fmap.
Qed.

Lemma carried_over_from acc (f : DataFrame) :
  Forall2 carried_over f
    (zip_with set_combined_cumsum
       ((λ r, set_count (to_numeric (count r)) r) <$> f)
       (cumsum_from acc
          (fillna0 ∘ count <$> ((λ r, set_count (to_numeric (count r)) r) <$> f)))).
Proof.
  revert acc. induction f as [|r f IH]; intros acc; [constructor|].
  rewrite !fmap_cons. simpl. constructor; [done|apply IH].
Qed.

(** Every row of the combined frame is the row of the concatenation at
    the same position, with its count made numeric. *)
Lemma with_combined_cumsum_carried f :
  Forall2 carried_over f (with_combined_cumsum f).
Proof. apply carried_over_from. Qed.

Lemma combined_cumsum_column f :
  combined_cumsum <$> with_combined_cumsum f = Some <$> cumsum_col (counts f).
Proof.
  unfold with_combined_cumsum.
  rewrite (fmap_zip_with_r combined_cumsum Some);
    [|done|by rewrite length_cumsum_col, !length_fmap].
  f_equal. f_equal. unfold counts. rewrite <- list_fmap_compose.
  apply list_fmap_ext. intros i r _. simpl. apply fillna0_to_numeric.
Qed.

Lemma carried_fmap {X} (col : Row → X) (f f' : DataFrame) :
  (∀ r r', carried_over r r' → col r' = col r) →
  Forall2 carried_over f f' → col <$> f' = col <$> f.
Proof.
  intros Hcol. induction 1 as [|r r' f f' Hr _ IH]; [done|].
  rewrite !fmap_cons. by rewrite (Hcol r r'), IH.
Qed.

Lemma carried_tagged p (f f' : DataFrame) :
  Forall2 carried_over f f' → Forall2 carried_over (tagged p f) (tagged p f').
Proof.
  intros Hf. unfold tagged. eapply Forall2_filter; [|done].
  intros r r' (_ & _ & _ & Hp). by rewrite Hp.
Qed.

Lemma tagged_all p (f : DataFrame) : tagged p (set_period p <$> f) = set_period p <$> f.
Proof.
  unfold tagged. induction f as [|r f IH]; [done|].
  rewrite fmap_cons, filter_cons_True by done. by rewrite IH.
Qed.

Lemma tagged_none p q (f : DataFrame) : p ≠ q → tagged p (set_period q <$> f) = [].
Proof.
  intros Hpq. unfold tagged. apply filter_none.
  intros r (r0 & -> & _)%list_elem_of_fmap. simpl. congruence.
Qed.

Lemma fmap_set_period {X} (col : Row → X) p (f : DataFrame) :
  (∀ r, col (set_period p r) = col r) → col <$> (set_period p <$> f) = col <$> f.
Proof.
  intros Hcol. rewrite <- list_fmap_compose. apply list_fmap_ext.
  intros i r _. apply Hcol.
Qed.

Lemma removelast_take {X} (l : list X) : removelast l = take (length l - 1) l.
Proof.
  induction l as [|x [|y l] IH]; [done..|].
  change (removelast (x :: y :: l)) with (x :: removelast (y :: l)).
  rewrite IH. simpl. by rewrite Nat.sub_0_r.
Qed.

Lemma length_removelast {X} (l : list X) : length (removelast l) = (length l - 1)%nat.
Proof. rewrite removelast_take, length_take. lia. Qed.

(** In a list without repetition, the last entry is not among the
    others. *)
Lemma last_not_in_removelast {X} (l : list X) x :
  NoDup l → last l = Some x → x ∉ removelast l.
Proof.
  intros Hnd Hlast.
  destruct (last_Some l x) as [[l' Hl'] _]; [done|]. subst l.
  rewrite removelast_last.
  apply NoDup_app in Hnd as (_ & Hdisj & _).
  intros Hin. apply (Hdisj x Hin). by left.
Qed.

Lemma fmap_removelast {X Y} (f : X → Y) (l : list X) :
  f <$> removelast l = removelast (f <$> l).
Proof.
  rewrite !removelast_take, length_fmap. by rewrite fmap_take.
Qed.

End combined_lemmas.

(** ** Claims about [create_combined_data] *)

Section combined_frame_run.
Variables (h : heap) (current_data previous_data : ref) (C P : DataFrame).
Hypothesis HC : h !! current_data = Some C.
Hypothesis HP : h !! previous_data = Some P.

Lemma combined_frame_run r2 :
  (2 ≤ length P)%nat → P !! (length P - 2)%nat = Some r2 →
  combined_frame current_data previous_data h
  = Returned
      (with_combined_cumsum
         ((set_period Previous <$> removelast P) ++
          (set_period Current <$> anchor_row (date_created r2) :: C))).
Proof.
  intros Hlen Hr2. unfold combined_frame.
  destruct (create_combined_data_run h current_data previous_data C P HC HP
              r2 Hlen Hr2) as (delta & c1 & c2 & ->).
  by rewrite lookup_tail.
Qed.

End combined_frame_run.

(** C4.  With an earlier window of at least two rows the call returns
    the combined frame.  Its first row tagged [current] has count 0,
    cumulative 0 and the date of the earlier window's second-to-last row.
    Its rows tagged [previous] are the rows of the earlier window without
    the final one, position by position; so when the dates of the earlier
    window are pairwise distinct, as in every daily series, the date of
    its final row is on none of them. *)
Theorem create_combined_data_alignment h current_data previous_data C P :
  h !! current_data = Some C → h !! previous_data = Some P →
  (2 ≤ length P)%nat →
  ∃ combined r2 first,
    combined_frame current_data previous_data h = Returned combined ∧
    P !! (length P - 2)%nat = Some r2 ∧
    head (tagged Current combined) = Some first ∧
    count first = CNum 0 ∧ cumsum first = Some 0 ∧
    date_created first = date_created r2 ∧
    Forall2 carried_over
      (set_period Previous <$> take (length P - 1) P) (tagged Previous combined) ∧
    length (tagged Previous combined) = (length P - 1)%nat ∧
    (NoDup (date_created <$> P) →
     ∀ final, last P = Some final →
       date_created final ∉ date_created <$> tagged Previous combined).
Proof.
  intros HC HP Hlen.
  destruct (iloc_neg2_run P Hlen) as (r2 & Hr2 & _).
  pose proof (combined_frame_run h current_data previous_data C P HC HP r2
                Hlen Hr2) as Hrun.
  set (prev_rows := set_period Previous <$> removelast P) in *.
  set (cur_rows := set_period Current <$> anchor_row (date_created r2) :: C) in *.
  set (combined := with_combined_cumsum (prev_rows ++ cur_rows)) in *.
  assert (Forall2 carried_over prev_rows (tagged Previous combined)) as Hprev.
  { pose proof (carried_tagged Previous _ _
                  (with_combined_cumsum_carried (prev_rows ++ cur_rows))) as Ht.
    unfold tagged at 1 in Ht. rewrite filter_app in Ht.
    fold (tagged Previous prev_rows) (tagged Previous cur_rows) in Ht.
    unfold prev_rows, cur_rows in Ht.
    rewrite tagged_all, tagged_none, app_nil_r in Ht by done. done. }
  assert (Forall2 carried_over cur_rows (tagged Current combined)) as Hcur.
  { pose proof (carried_tagged Current _ _
                  (with_combined_cumsum_carried (prev_rows ++ cur_rows))) as Ht.
    unfold tagged at 1 in Ht. rewrite filter_app in Ht.
    fold (tagged Current prev_rows) (tagged Current cur_rows) in Ht.
    unfold prev_rows, cur_rows in Ht.
    rewrite tagged_all, tagged_none in Ht by done. done. }
  unfold cur_rows in Hcur. rewrite fmap_cons in Hcur.
  destruct (tagged Current combined) as [|first rest] eqn:Hhead;
    [by apply Forall2_cons_nil_inv in Hcur|].
  apply Forall2_cons_1 in Hcur as [(Hd & Hc & Hs & _) _].
  simpl in Hd, Hc, Hs.
  exists combined, r2, first.
  split_and!; try done.
  - by rewrite Hhead.
  - by rewrite <- removelast_take.
  - apply Forall2_length in Hprev. rewrite <- Hprev.
    unfold prev_rows. by rewrite length_fmap, length_removelast.
  - intros Hnd final Hfinal.
    rewrite (carried_fmap date_created _ _ (λ r r' H, proj1 H) Hprev).
    unfold prev_rows. rewrite fmap_set_period by done.
    rewrite fmap_removelast. apply last_not_in_removelast; [done|].
    by rewrite fmap_last, Hfinal.
Qed.

(** C5.  The combined frame holds the rows of the earlier window but
    the final one, then the synthetic row and the rows of the later
    window, in that order; [combined_cumsum] at a position is the sum of
    the counts of that whole sequence from its first row through the
    position, a missing or non-numeric count taken as 0.  The [cumsum]
    columns of the two windows are carried along and play no part. *)
Theorem create_combined_data_running_sum h current_data previous_data C P :
  h !! current_data = Some C → h !! previous_data = Some P →
  (2 ≤ length P)%nat →
  ∃ combined r2,
    combined_frame current_data previous_data h = Returned combined ∧
    P !! (length P - 2)%nat = Some r2 ∧
    let rows := removelast P ++ anchor_row (date_created r2) :: C in
    period <$> combined
      = replicate (length P - 1) (Some Previous) ++
        replicate (S (length C)) (Some Current) ∧
    date_created <$> combined = date_created <$> rows ∧
    cumsum <$> combined = cumsum <$> rows ∧
    count <$> combined = to_numeric ∘ count <$> rows ∧
    ∀ i, (i < length combined)%nat →
      (combined_cumsum <$> combined) !! i
      = Some (Some (sum_col (take (S i) (counts rows)))).
Proof.
  intros HC HP Hlen.
  destruct (iloc_neg2_run P Hlen) as (r2 & Hr2 & _).
  pose proof (combined_frame_run h current_data previous_data C P HC HP r2
                Hlen Hr2) as Hrun.
  set (prev_rows := set_period Previous <$> removelast P) in *.
  set (cur_rows := set_period Current <$> anchor_row (date_created r2) :: C) in *.
  pose proof (with_combined_cumsum_carried (prev_rows ++ cur_rows)) as Hcar.
  set (combined := with_combined_cumsum (prev_rows ++ cur_rows)) in *.
  exists combined, r2. split; [done|]. split; [done|]. intros rows.
  assert (counts (prev_rows ++ cur_rows) = counts rows) as Hcounts.
  { unfold counts, rows, prev_rows, cur_rows.
    rewrite !fmap_app. by rewrite !fmap_set_period. }
  split_and!.
  - rewrite (carried_fmap period _ _ (λ r r' H, proj2 (proj2 (proj2 H))) Hcar).
    unfold prev_rows, cur_rows. rewrite fmap_app.
    rewrite <- !list_fmap_compose.
    rewrite (const_fmap _ (removelast P) (Some Previous)) by done.
    rewrite (const_fmap _ (_ :: C) (Some Current)) by done.
    by rewrite length_removelast.
  - rewrite (carried_fmap date_created _ _ (λ r r' H, proj1 H) Hcar).
    unfold rows, prev_rows, cur_rows. rewrite !fmap_app.
    by rewrite !fmap_set_period.
  - rewrite (carried_fmap cumsum _ _ (λ r r' H, proj1 (proj2 (proj2 H))) Hcar).
    unfold rows, prev_rows, cur_rows. rewrite !fmap_app.
    by rewrite !fmap_set_period.
  - assert (count <$> combined = to_numeric ∘ count <$> prev_rows ++ cur_rows)
      as ->.
    { clear -Hcar. induction Hcar as [|r r' f f' (_ & Hc & _) _ IH]; [done|].
      rewrite !fmap_cons. simpl. by rewrite Hc, IH. }
    unfold rows, prev_rows, cur_rows. rewrite !fmap_app.
    by rewrite !fmap_set_period.
  - intros i Hi. unfold combined in *.
    rewrite length_with_combined_cumsum in Hi.
    rewrite combined_cumsum_column, Hcounts, list_lookup_fmap.
    rewrite lookup_cumsum_col; [done|].
    rewrite <- Hcounts. unfold counts. by rewrite length_fmap.
Qed.

(** C6.  The call raises [ValueError("previous_data needs at least 2
    rows.")], the code's insufficient-data error, exactly when the
    earlier window has fewer than two rows, one row included; the heap
    at the raise is the heap of the call, so neither input was written.
    With two rows or more it returns, and every frame that was in the
    heap, both inputs among them, is still what it was. *)
Theorem create_combined_data_insufficient h current_data previous_data C P :
  h !! current_data = Some C → h !! previous_data = Some P →
  let msg := "previous_data needs at least 2 rows."%string in
  ((create_combined_data current_data previous_data h).1
     = Raised (ValueError msg) ↔ (length P < 2)%nat) ∧
  (length P = 1%nat →
     create_combined_data current_data previous_data h
     = (Raised (ValueError msg), h)) ∧
  (∀ e, (create_combined_data current_data previous_data h).1 = Raised e →
     e = ValueError msg ∧
     (create_combined_data current_data previous_data h).2 = h) ∧
  ((2 ≤ length P)%nat →
     (∃ v, (create_combined_data current_data previous_data h).1 = Returned v) ∧
     ∀ r f, h !! r = Some f →
       (create_combined_data current_data previous_data h).2 !! r = Some f).
Proof.
  intros HC HP msg.
  destruct (decide (length P < 2)%nat) as [Hlen|Hlen].
  - rewrite (create_combined_data_short h current_data previous_data C P)
      by done.
    simpl. split_and!; try done.
    + intros e [= <-]. done.
    + lia.
  - destruct (iloc_neg2_run P) as (r2 & Hr2 & _); [lia|].
    destruct (create_combined_data_run h current_data previous_data C P HC HP
                r2) as (delta & c1 & c2 & ->); [lia|done|].
    simpl. split_and!; try done.
    + lia.
    + intros _. split; [eauto|].
      intros r f Hr. by apply lookup_app_l_Some.
Qed.

(** ** The claims on concrete inputs *)

(** [get_window_data_row_counts] on the example clients with two-day
    windows: three rows in the first three windows, two in the oldest. *)
Lemma get_window_data_row_counts_witness :
  example_heap !! 0%nat = Some example_clients ∧ 1 ≤ 2 ∧
  ∃ data cur prev prev2 prev3,
    window_frames example_globals 0 2 example_heap
      = Returned (data, cur, prev, prev2, prev3) ∧
    date_created <$> cur = [98; 99; 100] ∧
    date_created <$> prev = [96; 97; 98] ∧
    date_created <$> prev2 = [94; 95; 96] ∧
    date_created <$> prev3 = [93; 94].
Proof.
  split; [reflexivity|]. split; [lia|].
  destruct (get_window_data_row_counts example_globals example_heap 0
              example_clients 2 eq_refl ltac:(lia))
    as (data & cur & prev & prev2 & prev3 & Hrun & Hc & Hp & Hp2 & _ & _ & _
        & Hp3 & _).
  exists data, cur, prev, prev2, prev3. split_and!; assumption.
Defined.


(** C7, the claim as stated fails: with [days = 0] and with [days = -3]
    the call returns frames where the claim wants an error. *)
Lemma get_window_data_accepts_days_below_1 :
  0 < 1 ∧ -3 < 1 ∧
  window_frames example_globals 0 0 example_heap
    = Returned ([mkRow 100 (CNum 1) (Some 1) None None],
                [mkRow 100 (CNum 0) (Some 0) None None],
                [mkRow 100 (CNum 0) (Some 0) None None],
                [mkRow 100 (CNum 0) (Some 0) None None],
                []) ∧
  window_frames example_globals 0 (-3) example_heap
    = Returned ([], [], [], [], []).
Proof. split_and!; [lia|lia|vm_compute; reflexivity..]. Qed.

Lemma get_window_data_never_raises_witness :
  example_heap !! 0%nat = Some example_clients ∧ -3 < 1 ∧
  pandas_days (-3 * 4) ∧ pandas_days 100 ∧ pandas_days (100 - -3 * 4) ∧
  ∃ data cur prev prev2 prev3,
    window_frames example_globals 0 (-3) example_heap
      = Returned (data, cur, prev, prev2, prev3) ∧
    (-3 < 0 → data = [] ∧ cur = [] ∧ prev = [] ∧ prev2 = [] ∧ prev3 = []).
Proof.
  split; [reflexivity|]. split; [lia|].
  split; [unfold pandas_days; lia|]. split; [unfold pandas_days; lia|].
  split; [unfold pandas_days; lia|].
  destruct (get_window_data_never_raises example_globals example_heap 0
              example_clients (-3) eq_refl ltac:(lia)
              ltac:(unfold pandas_days; lia)
              ltac:(unfold pandas_days; simpl; lia)
              ltac:(unfold pandas_days; simpl; lia))
    as (data & cur & prev & prev2 & prev3 & Hrun & Hneg & _).
  exists data, cur, prev, prev2, prev3. split; assumption.
Defined.





Lemma calc_delta_policy_witness :
  (0 < 3)%Q ∧ calc_delta (Num 3) (Num 0) = Returned (Num 1) ∧
  ¬ (100 == 0)%Q ∧
  calc_delta (Num 150) (Num 100) = Returned (Num ((150 - 100) / 100)).
Proof.
  destruct calc_delta_policy as (_ & Hpos & Hdiv & _).
  split; [reflexivity|]. split; [by apply Hpos|].
  split; [discriminate|]. by apply Hdiv.
Defined.

Lemma calc_delta_zero_baseline_witness :
  ¬ (-3 == 0)%Q ∧ calc_delta (Num (-3)) (Num 0) = Returned (Num 1).
Proof.
  split; [discriminate|]. apply calc_delta_zero_baseline. discriminate.
Defined.

Lemma create_combined_data_alignment_witness :
  example_windows !! 0%nat = Some example_later ∧
  example_windows !! 1%nat = Some example_earlier ∧
  (2 ≤ length example_earlier)%nat ∧
  ∃ combined first,
    combined_frame 0 1 example_windows = Returned combined ∧
    head (tagged Current combined) = Some first ∧
    count first = CNum 0 ∧ cumsum first = Some 0 ∧ date_created first = 97 ∧
    98 ∉ date_created <$> tagged Previous combined.
Proof.
  split; [reflexivity|]. split; [reflexivity|]. split; [simpl; lia|].
  destruct (create_combined_data_alignment example_windows 0 1 example_later
              example_earlier eq_refl eq_refl ltac:(simpl; lia))
    as (combined & r2 & first & Hrun & Hr2 & Hhead & Hc & Hs & Hd & _ & _ & Hnd).
  exists combined, first. split_and!; try assumption.
  - rewrite Hd. by injection Hr2 as <-.
  - apply (Hnd (NoDup_seqZ 96 3)
             (mkRow 98 (CNum 1) (Some 2) None None) eq_refl).
Defined.

Lemma create_combined_data_running_sum_witness :
  example_windows !! 0%nat = Some example_later ∧
  example_windows !! 1%nat = Some example_earlier ∧
  (2 ≤ length example_earlier)%nat ∧
  ∃ combined,
    combined_frame 0 1 example_windows = Returned combined ∧
    date_created <$> combined = [96; 97; 97; 98; 99; 100] ∧
    period <$> combined
      = [Some Previous; Some Previous; Some Current; Some Current;
         Some Current; Some Current].
Proof.
  split; [reflexivity|]. split; [reflexivity|]. split; [simpl; lia|].
  destruct (create_combined_data_running_sum example_windows 0 1 example_later
              example_earlier eq_refl eq_refl ltac:(simpl; lia))
    as (combined & r2 & Hrun & Hr2 & Hp & Hd & _).
  exists combined. split_and!; try assumption.
  rewrite Hd. by injection Hr2 as <-.
Defined.

Lemma create_combined_data_insufficient_witness :
  example_windows !! 1%nat = Some example_earlier ∧
  [example_later; [client 98]] !! 0%nat = Some example_later ∧
  [example_later; [client 98]] !! 1%nat = Some [client 98] ∧
  create_combined_data 0 1 [example_later; [client 98]]
    = (Raised (ValueError "previous_data needs at least 2 rows."),
       [example_later; [client 98]]).
Proof.
  split; [reflexivity|]. split; [reflexivity|]. split; [reflexivity|].
  destruct (create_combined_data_insufficient [example_later; [client 98]] 0 1
              example_later [client 98] eq_refl eq_refl) as (_ & Hone & _).
  by apply Hone.
Defined.

(** ** The dashboard on two scenarios *)

(** Ten-day windows ending on day 100: five clients in the current
    window against ten in the previous one is a delta of -1/2, shown in
    red. *)
Example decline_by_half :
  ∃ r q,
    (compare_current_previous example_globals 0 10 [example_decline]).1
      = Returned (r, Num q, "rgba(255, 43, 43, 0.1)"%string,
                  "rgb(255, 43, 43)"%string) ∧
    (q == - (1 # 2))%Q.
Proof. do 2 eexists. split; [vm_compute; reflexivity|reflexivity]. Qed.

(** No client at all, thirty-day windows: the delta is 0.0, shown in
    green. *)
Example no_events :
  ∃ r,
    (compare_current_previous example_globals 0 30 [[]]).1
      = Returned (r, Num 0, "rgba(33, 195, 84, 0.1)"%string,
                  "rgb(21, 130, 55)"%string).
Proof. eexists. vm_compute. reflexivity. Qed.

(** * Further properties *)

(** ** Totals of the windows *)

Section totals.













End totals.

(** ** Largest and last cumulative value *)

Section largest_and_last.







Lemma series_max_empty : series_max (cumsum <$> with_cumsum []) = NaN.
Proof. done. Qed.





End largest_and_last.


(** ** The windows as a count of clients *)

Section counting.



Lemma events_on_app rows extra d :
  events_on (rows ++ extra) d = events_on rows d + events_on extra d.
Proof.
  unfold events_on, occurrences. rewrite fmap_app, filter_app, length_app. lia.
Qed.

Lemma events_on_Permutation rows rows' d :
  rows ≡ₚ rows' → events_on rows d = events_on rows' d.
Proof. intros Hp. unfold events_on, occurrences. by rewrite Hp. Qed.

Lemma events_on_outside extra d :
  Forall (λ r, date_created r ≠ d) extra → events_on extra d = 0.
Proof.
  intros Hout. unfold events_on. apply occurrences_absent.
  intros (r & Hd & Hr)%list_elem_of_fmap.
  by eapply Forall_forall in Hout.
Qed.

Lemma all_counts_ext rows rows' lo hi :
  (∀ d, lo ≤ d ≤ hi → events_on rows d = events_on rows' d) →
  all_counts rows lo hi = all_counts rows' lo hi.
Proof.
  intros Hd. unfold all_counts. apply list_fmap_ext. intros i d Hi.
  apply list_elem_of_lookup_2, elem_of_date_range in Hi. by rewrite Hd.
Qed.

Lemma window_counts_ext rows rows' lo hi :
  (∀ d, lo < d ≤ hi → events_on rows d = events_on rows' d) →
  window_counts rows lo hi = window_counts rows' lo hi.
Proof.
  intros Hd. unfold window_counts. apply list_fmap_ext. intros i d Hi.
  apply list_elem_of_lookup_2, elem_of_date_range in Hi.
  destruct (decide (lo < d)); [|done]. rewrite Hd; [done|lia].
Qed.


End counting.



(** X4.  The frames [get_window_data] returns depend on the client frame
    only through the clients dated from [CURRENT_DATE - 4 * days] to
    [CURRENT_DATE]: the order of the rows plays no part, and rows dated
    outside that range change nothing. *)
Theorem get_window_data_ignores_order_and_outside
    g h h' df df' rows rows' extra days :
  h !! df = Some rows → h' !! df' = Some rows' →
  rows' ≡ₚ rows ++ extra →
  Forall (λ r, date_created r < CURRENT_DATE g - days * 4 ∨
               CURRENT_DATE g < date_created r) extra →
  window_frames g df' days h' = window_frames g df days h.
Proof.
  intros Hdf Hdf' Hperm Hout.
  rewrite (window_frames_run g h df rows days Hdf).
  rewrite (window_frames_run g h' df' rows' days Hdf').
  set (a := CURRENT_DATE g) in *.
  assert (∀ d, a - days * 4 ≤ d ≤ a → events_on rows' d = events_on rows d)
    as Hsame.
  { intros d Hd. rewrite (events_on_Permutation _ _ d Hperm), events_on_app.
    rewrite (events_on_outside extra); [lia|].
    eapply Forall_impl; [exact Hout|]. simpl. intros r Hr. lia. }
  destruct (decide (0 ≤ days)) as [Hpos|Hneg].
  - rewrite (all_counts_ext rows' rows (a - days * 4) a),
      (all_counts_ext rows' rows (a - days * 4 + 1) (a - days * 3)),
      (window_counts_ext rows' rows (a - days) a),
      (window_counts_ext rows' rows (a - days * 2) (a - days)),
      (window_counts_ext rows' rows (a - days * 3) (a - days * 2));
      [done|intros d Hd; apply Hsame; lia..].
  - unfold all_counts, window_counts, date_range.
    rewrite !seqZ_nil by lia. done.
Qed.

(** ** The result of [create_combined_data] in full *)

Section create_combined_data_result.
Variables (h : heap) (current_data previous_data : ref) (C P : DataFrame).
Hypothesis HC : h !! current_data = Some C.
Hypothesis HP : h !! previous_data = Some P.

Lemma get_delta_pct_result :
  ∃ delta,
    calc_delta (series_max (cumsum <$> C)) (series_max (cumsum <$> P))
      = Returned delta ∧
    get_delta_pct current_data previous_data h
      = (Returned (delta, (line_colors delta).1, (line_colors delta).2), h).
Proof.
  unfold get_delta_pct.
  rewrite (run_load current_data C) by done.
  rewrite (run_load previous_data P) by done.
  destruct (calc_delta_total (series_max (cumsum <$> C))
              (series_max (cumsum <$> P))) as [v Hv].
  exists v. split; [done|].
  unfold bind, lift, line_colors. rewrite Hv.
  by destruct (py_lt0 v).
Qed.

Lemma create_combined_data_result r2 :
  (2 ≤ length P)%nat → P !! (length P - 2)%nat = Some r2 →
  ∃ delta,
    calc_delta (series_max (cumsum <$> C)) (series_max (cumsum <$> P))
      = Returned delta ∧
    create_combined_data current_data previous_data h
    = (Returned ((length h + 3)%nat, delta,
                 (line_colors delta).1, (line_colors delta).2),
       h ++ [[anchor_row (date_created r2)];
             set_period Current <$> anchor_row (date_created r2) :: C;
             set_period Previous <$> removelast P;
             with_combined_cumsum
               ((set_period Previous <$> removelast P) ++
                (set_period Current <$> anchor_row (date_created r2) :: C))]).
Proof.
  intros Hlen Hr2.
  destruct get_delta_pct_result as (delta & Hdelta & Hd).
  exists delta. split; [done|].
  unfold create_combined_data.
  unfold bind at 1. rewrite Hd.
  rewrite (run_load previous_data P) by done.
  rewrite decide_False by lia.
  destruct (iloc_neg2_run P Hlen) as (r2' & Hr2' & ->).
  assert (r2' = r2) as -> by congruence.
  unfold bind at 1, ret at 1.
  rewrite run_alloc.
  rewrite (run_load (length h) [anchor_row (date_created r2)])
    by (by apply list_lookup_middle).
  rewrite (run_load current_data C) by (by apply lookup_app_l_Some).
  rewrite run_alloc. heap_norm.
  rewrite (run_load previous_data P) by (by apply lookup_app_l_Some).
  rewrite run_alloc. heap_norm.
  rewrite bind_assoc.
  rewrite (run_load (length h + 2) (removelast P)) by (by rewrite lookup_tail).
  erewrite run_update by (by rewrite lookup_tail).
  rewrite insert_app_r. cbn [list_insert Nat.add].
  rewrite bind_assoc.
  erewrite (run_load (length h + 1)) by (by rewrite lookup_tail).
  erewrite run_update by (by rewrite lookup_tail).
  rewrite insert_app_r. cbn [list_insert Nat.add].
  erewrite (run_load (length h + 2)) by (by rewrite lookup_tail).
  erewrite (run_load (length h + 1)) by (by rewrite lookup_tail).
  rewrite run_alloc. heap_norm.
  rewrite bind_assoc.
  erewrite (run_load (length h + 3)) by (by rewrite lookup_tail).
  erewrite run_update by (by rewrite lookup_tail).
  rewrite insert_app_r. cbn [list_insert Nat.add].
  rewrite bind_assoc.
  erewrite (run_load (length h + 3)) by (by rewrite lookup_tail).
  erewrite run_update by (by rewrite lookup_tail).
  rewrite insert_app_r. cbn [list_insert Nat.add].
  reflexivity.
Qed.

End create_combined_data_result.

(** ** The onboarding analysis *)

Section onboarding.


Lemma bind_raised {X Y} (m : M X) (k : X → M Y) h e h' :
  m h = (Raised e, h') → bind m k h = (Raised e, h').
Proof. intros Hm. unfold bind. by rewrite Hm. Qed.




End onboarding.


(** X6.  For [days < 1] that pandas can hold, [get_window_data] returns
    windows of at most one row, and [create_combined_data] takes none of
    the four as its earlier window: whatever the later one, it raises
    [ValueError("previous_data needs at least 2 rows.")] and leaves the
    heap as it is. *)
Theorem get_window_data_windows_too_short g h df rows days :
  h !! df = Some rows → days < 1 →
  pandas_days (days * 4) → pandas_days (CURRENT_DATE g) →
  pandas_days (CURRENT_DATE g - days * 4) →
  ∃ data cur prev prev2 prev3 h',
    get_window_data g df days h
      = (Returned (data, cur, prev, prev2, prev3), h') ∧
    Forall (λ r, ∃ f, h' !! r = Some f ∧ (length f ≤ 1)%nat)
      [cur; prev; prev2; prev3] ∧
    ∀ earlier later,
      earlier ∈ [cur; prev; prev2; prev3] → is_Some (h' !! later) →
      create_combined_data later earlier h'
      = (Raised (ValueError "previous_data needs at least 2 rows."), h').
Proof.
  intros Hdf Hdays _ _ _. do 6 eexists.
  split; [exact (get_window_data_run g h df rows days Hdf)|].
  set (a := CURRENT_DATE g). set (h' := h ++ _).
  assert (Forall (λ r, ∃ f, h' !! r = Some f ∧ (length f ≤ 1)%nat)
            [length h + 2; length h + 3; length h + 4; length h + 1]%nat)
    as Hshort.
  { repeat (constructor;
      [eexists; split; [unfold h'; by rewrite lookup_tail|];
       rewrite length_with_cumsum;
       unfold window_counts, all_counts;
       rewrite length_fmap, length_date_range; lia|]).
    constructor. }
  split; [exact Hshort|].
  intros earlier later Hearlier [C HC].
  eapply Forall_forall in Hshort as (P & HP & Hlen); [|exact Hearlier].
  apply (create_combined_data_short h' later earlier C P HC HP). lia.
Qed.

(** ** More on [calc_delta], [get_delta_pct] and the combined frame *)

Section delta_of_counts.

Lemma delta_negative (c p : Z) :
  0 < p → ((inject_Z c - inject_Z p) / inject_Z p < 0)%Q ↔ c < p.
Proof.
  intros Hp. destruct p as [|p|p]; try lia.
  unfold Qlt, Qdiv, Qmult, Qinv, Qminus, Qplus, Qopp, inject_Z. simpl. lia.
Qed.

Lemma delta_zero (c p : Z) :
  0 < p → ((inject_Z c - inject_Z p) / inject_Z p == 0)%Q ↔ c = p.
Proof.
  intros Hp. destruct p as [|p|p]; try lia.
  unfold Qeq, Qdiv, Qmult, Qinv, Qminus, Qplus, Qopp, inject_Z. simpl. lia.
Qed.

Lemma delta_lower_bound (c p : Z) :
  0 < p → 0 ≤ c → (- (1) <= (inject_Z c - inject_Z p) / inject_Z p)%Q.
Proof.
  intros Hp Hc. destruct p as [|p|p]; try lia.
  unfold Qle, Qdiv, Qmult, Qinv, Qminus, Qplus, Qopp, inject_Z. simpl. lia.
Qed.

Lemma inject_Z_zero (p : Z) : ¬ (inject_Z p == 0)%Q ↔ p ≠ 0.
Proof. unfold Qeq, inject_Z. simpl. lia. Qed.

Lemma py_lt0_Num q : py_lt0 (Num q) = true ↔ (q < 0)%Q.
Proof.
  unfold py_lt0. destruct (Qlt_le_dec q 0) as [Hlt|Hle]; split; try done.
  intros Hlt. by apply Qle_not_lt in Hle.
Qed.

Lemma calc_delta_ratio (c p : Q) :
  ¬ (p == 0)%Q → calc_delta (Num c) (Num p) = Returned (Num ((c - p) / p)).
Proof.
  intros Hp. unfold calc_delta.
  pose proof (is_zero_Num_false p Hp) as Hz. rewrite Hz.
  simpl in *. by rewrite Hz.
Qed.

Lemma calc_delta_from_zero (c : Q) :
  ¬ (c == 0)%Q → calc_delta (Num c) (Num (inject_Z 0)) = Returned (Num 1).
Proof.
  intros Hc. unfold calc_delta.
  assert (is_zero (Num (inject_Z 0)) = true) as -> by reflexivity.
  by rewrite is_zero_Num_false.
Qed.

End delta_of_counts.

(** X7.  On two counts, none negative, [calc_delta] gives 0.0 or 1.0
    when the earlier count is 0; otherwise a value that is at least -1,
    negative exactly when the later count is the smaller one and zero
    exactly when the two are equal. *)
Theorem calc_delta_of_counts (c p : Z) :
  0 ≤ c → 0 ≤ p →
  ∃ q, calc_delta (Num (inject_Z c)) (Num (inject_Z p)) = Returned (Num q) ∧
       (- (1) <= q)%Q ∧
       ((q < 0)%Q ↔ c < p) ∧
       ((q == 0)%Q ↔ c = p) ∧
       (p = 0 → 0 < c → q = 1%Q).
Proof.
  intros Hc Hp. destruct (decide (p = 0)) as [->|Hp0].
  - destruct (decide (c = 0)) as [->|Hc0].
    + exists 0%Q. split; [reflexivity|].
      split; [by vm_compute|]. split; [|split]; [| |lia].
      * split; [intros H; by vm_compute in H|lia].
      * done.
    + exists 1%Q. rewrite calc_delta_from_zero
        by (by apply inject_Z_zero).
      split; [reflexivity|].
      split; [by vm_compute|]. split; [|split]; [| |done].
      * split; [intros H; by vm_compute in H|lia].
      * split; [intros H; by vm_compute in H|lia].
  - exists ((inject_Z c - inject_Z p) / inject_Z p)%Q.
    rewrite calc_delta_ratio by (by apply inject_Z_zero).
    split; [reflexivity|].
    split; [apply delta_lower_bound; lia|].
    split; [apply delta_negative; lia|].
    split; [apply delta_zero; lia|lia].
Qed.

(** ** The combined frame of two windows of [get_window_data] *)

Section compared.






End compared.


(** ** The colours of [get_delta_pct] *)

Section colours.

Lemma calc_delta_counts_negative (c p : Z) delta :
  0 ≤ c → 0 ≤ p →
  calc_delta (Num (inject_Z c)) (Num (inject_Z p)) = Returned delta →
  py_lt0 delta = true ↔ c < p.
Proof.
  intros Hc Hp Hdelta. destruct (decide (p = 0)) as [->|Hp0].
  - destruct (decide (c = 0)) as [->|Hc0].
    + injection Hdelta as <-. split; [done|lia].
    + rewrite calc_delta_from_zero in Hdelta by (by apply inject_Z_zero).
      injection Hdelta as <-. split; [done|lia].
  - rewrite calc_delta_ratio in Hdelta by (by apply inject_Z_zero).
    injection Hdelta as <-. rewrite py_lt0_Num. apply delta_negative. lia.
Qed.

Lemma calc_delta_NaN curr prev delta :
  curr = NaN ∨ prev = NaN →
  calc_delta curr prev = Returned delta → py_lt0 delta = false.
Proof.
  intros Hnan Hdelta. unfold calc_delta in Hdelta.
  destruct prev as [p|], curr as [c|]; simpl in Hdelta.
  - by destruct Hnan.
  - destruct (Qeq_bool p 0); [|by injection Hdelta as <-].
    by injection Hdelta as <-.
  - by injection Hdelta as <-.
  - by injection Hdelta as <-.
Qed.

Lemma line_colors_red delta : line_colors delta = red ↔ py_lt0 delta = true.
Proof. unfold line_colors, red. by destruct (py_lt0 delta). Qed.

Lemma line_colors_green delta : line_colors delta = green ↔ py_lt0 delta = false.
Proof. unfold line_colors, green. by destruct (py_lt0 delta). Qed.

End colours.

(** X9.  [get_delta_pct] raises nothing and leaves the heap as it is.
    The colours it returns are the red pair or the green pair.  When the
    two largest cumulative values are numbers, none negative, the pair is
    red exactly when the current one is the smaller; when one of the two
    frames has no cumulative value at all, the pair is green. *)
Theorem get_delta_pct_colors h current_data previous_data C P :
  h !! current_data = Some C → h !! previous_data = Some P →
  ∃ delta colors,
    get_delta_pct current_data previous_data h
    = (Returned (delta, colors.1, colors.2), h) ∧
    (colors = red ∨ colors = green) ∧
    (∀ c p, series_max (cumsum <$> C) = Num (inject_Z c) →
            series_max (cumsum <$> P) = Num (inject_Z p) →
            0 ≤ c → 0 ≤ p → (colors = red ↔ c < p)) ∧
    (series_max (cumsum <$> C) = NaN ∨ series_max (cumsum <$> P) = NaN →
     colors = green).
Proof.
  intros HC HP.
  destruct (get_delta_pct_result h current_data previous_data C P HC HP)
    as (delta & Hdelta & Hrun).
  exists delta, (line_colors delta). split; [done|]. split_and!.
  - destruct (py_lt0 delta) eqn:Hlt.
    + left. by apply line_colors_red.
    + right. by apply line_colors_green.
  - intros c p Hc Hp Hc0 Hp0. rewrite Hc, Hp in Hdelta.
    rewrite line_colors_red.
    by apply calc_delta_counts_negative.
  - intros Hnan. apply line_colors_green.
    by eapply calc_delta_NaN.
Qed.

(** ** The further properties on concrete inputs *)




(** The example clients given in another order, with a client long
    before and a client after the days [get_window_data] looks at. *)
Lemma get_window_data_ignores_order_and_outside_witness :
  let extra := [client 50; client 200] in
  let rows' := extra ++ example_clients in
  example_heap !! 0%nat = Some example_clients ∧
  [rows'] !! 0%nat = Some rows' ∧
  rows' ≡ₚ example_clients ++ extra ∧
  Forall (λ r, date_created r < 100 - 2 * 4 ∨ 100 < date_created r) extra ∧
  window_frames example_globals 0 2 [rows']
  = window_frames example_globals 0 2 example_heap.
Proof.
  intros extra rows'.
  assert (rows' ≡ₚ example_clients ++ extra) as Hperm
    by apply Permutation_app_comm.
  assert (Forall (λ r, date_created r < CURRENT_DATE example_globals - 2 * 4 ∨
                       CURRENT_DATE example_globals < date_created r) extra)
    as Hout.
  { constructor; [left; reflexivity|].
    constructor; [right; reflexivity|]. constructor. }
  split; [reflexivity|]. split; [reflexivity|].
  split; [exact Hperm|]. split; [exact Hout|].
  exact (get_window_data_ignores_order_and_outside example_globals
           example_heap [rows'] 0 0 example_clients rows' extra 2
           eq_refl eq_refl Hperm Hout).
Defined.


(** The example clients with [days = 0]: the previous window has one
    row, and the current window is not combined with it. *)
Lemma get_window_data_windows_too_short_witness :
  example_heap !! 0%nat = Some example_clients ∧ 0 < 1 ∧
  pandas_days (0 * 4) ∧ pandas_days 100 ∧ pandas_days (100 - 0 * 4) ∧
  ∃ data cur prev prev2 prev3 h',
    get_window_data example_globals 0 0 example_heap
      = (Returned (data, cur, prev, prev2, prev3), h') ∧
    create_combined_data cur prev h'
    = (Raised (ValueError "previous_data needs at least 2 rows."), h').
Proof.
  split; [reflexivity|]. split; [lia|].
  split; [unfold pandas_days; lia|]. split; [unfold pandas_days; lia|].
  split; [unfold pandas_days; lia|].
  destruct (get_window_data_windows_too_short example_globals example_heap 0
              example_clients 0 eq_refl ltac:(lia)
              ltac:(unfold pandas_days; lia)
              ltac:(unfold pandas_days; simpl; lia)
              ltac:(unfold pandas_days; simpl; lia))
    as (data & cur & prev & prev2 & prev3 & h' & Hrun & Hshort & Hraise).
  exists data, cur, prev, prev2, prev3, h'. split; [exact Hrun|].
  apply Forall_cons in Hshort as [(f & Hf & _) _].
  apply Hraise; [right; left|eauto].
Defined.

Lemma calc_delta_of_counts_witness :
  0 ≤ 3 ∧ 0 ≤ 4 ∧
  ∃ q, calc_delta (Num 3) (Num 4) = Returned (Num q) ∧ (q < 0)%Q.
Proof.
  split; [lia|]. split; [lia|].
  destruct (calc_delta_of_counts 3 4 ltac:(lia) ltac:(lia))
    as (q & Hq & _ & Hneg & _).
  exists q. split; [exact Hq|]. apply Hneg. lia.
Defined.


Lemma get_delta_pct_colors_witness :
  example_windows !! 0%nat = Some example_later ∧
  example_windows !! 1%nat = Some example_earlier ∧
  ∃ delta colors,
    get_delta_pct 0 1 example_windows
    = (Returned (delta, colors.1, colors.2), example_windows) ∧
    colors = green.
Proof.
  split; [reflexivity|]. split; [reflexivity|].
  destruct (get_delta_pct_colors example_windows 0 1 example_later
              example_earlier eq_refl eq_refl)
    as (delta & colors & Hrun & [Hred|Hgreen] & Hcounts & _).
  - apply (Hcounts 3 2 eq_refl eq_refl ltac:(lia) ltac:(lia)) in Hred. lia.
  - exists delta, colors. split; assumption.
Defined.

(** ** [filter_data] *)

Section filter_data_lemmas.
Context {X : Type}.



End filter_data_lemmas.



(** X12.  The order of the appointments plays no part in [filter_data]:
    on the same appointments in another order, as after the caller's
    [sort_values], each of the four frames holds the same appointments,
    so the counts shown are the same. *)
Theorem filter_data_order g appts appts' days :
  appts' ≡ₚ appts →
  let frames r := [r.1.1.1.1.1; r.1.1.1.1.2; r.1.1.1.2; r.1.1.2] in
  Forall2 (λ f' f : list Appt, f' ≡ₚ f ∧ length f' = length f)
    (frames (filter_data g appts' days)) (frames (filter_data g appts days)).
Proof.
  intros Hperm frames. unfold frames, filter_data. simpl.
  repeat constructor; try (by rewrite Hperm).
Qed.



Lemma filter_data_order_witness :
  rev example_appts ≡ₚ example_appts ∧
  Forall2 (λ f' f : list Appt, length f' = length f)
    [(filter_data example_globals (rev example_appts) 5).1.1.1.1.1]
    [(filter_data example_globals example_appts 5).1.1.1.1.1].
Proof.
  assert (rev example_appts ≡ₚ example_appts) as Hperm
    by (symmetry; apply Permutation_rev).
  split; [exact Hperm|].
  pose proof (filter_data_order example_globals example_appts
                (rev example_appts) 5 Hperm) as Hall.
  simpl in Hall. apply Forall2_cons_1 in Hall as [[_ Hlen] _].
  constructor; [exact Hlen|constructor].
Defined.

(** ** The charts *)

Section charts.

Lemma mapM_cell_number_Some col :
  CObj ∉ col →
  ∃ xs, mapM cell_number col = Some xs ∧ omap id xs = omap numeric col.
Proof.
  induction col as [|c col IH]; intros Hobj; [by exists []|].
  rewrite not_elem_of_cons in Hobj. destruct Hobj as [Hc Hcol].
  destruct (IH Hcol) as (xs & Hxs & Hnum).
  destruct c as [z| |]; [| |done].
  - exists (Some z :: xs). split; [simpl; by rewrite Hxs|].
    exact (f_equal (cons z) Hnum).
  - exists (None :: xs). split; [simpl; by rewrite Hxs|]. exact Hnum.
Qed.

Lemma foldr_max_positive x rest :
  0 < foldr Z.max x rest ↔ Exists (Z.lt 0) (x :: rest).
Proof.
  induction rest as [|y rest IH]; simpl.
  - rewrite Exists_cons, Exists_nil. tauto.
  - rewrite Exists_cons in IH. rewrite !Exists_cons.
    assert (0 < Z.max y (foldr Z.max x rest)
            ↔ 0 < y ∨ 0 < foldr Z.max x rest) as Hmax by lia.
    tauto.
Qed.

Lemma py_gt0_inject_Z m : py_gt0 (Num (inject_Z m)) = bool_decide (0 < m).
Proof.
  unfold py_gt0. destruct (Qlt_le_dec 0 (inject_Z m)) as [Hlt|Hle].
  - unfold Qlt in Hlt. simpl in Hlt. rewrite bool_decide_true; [done|lia].
  - unfold Qle in Hle. simpl in Hle. rewrite bool_decide_false; [done|lia].
Qed.

Lemma py_gt0_series_max xs :
  py_gt0 (series_max xs) = bool_decide (Exists (Z.lt 0) (omap id xs)).
Proof.
  unfold series_max. destruct (omap id xs) as [|x rest].
  - symmetry. apply bool_decide_eq_false_2. intros H. by apply Exists_nil in H.
  - rewrite py_gt0_inject_Z. apply bool_decide_ext, foldr_max_positive.
Qed.

Lemma positive_counts_nonempty f :
  positive_counts f ≠ [] ↔ Exists (Z.lt 0) (omap numeric (count <$> f)).
Proof.
  unfold positive_counts. induction f as [|r f IH].
  - simpl. rewrite Exists_nil. tauto.
  - rewrite fmap_cons, filter_cons. simpl omap.
    destruct (count r) as [z| |] eqn:Hc; simpl.
    + rewrite Exists_cons. destruct (decide (0 < z)) as [Hz|Hz].
      * rewrite decide_True by (by apply bool_decide_pack).
        split; [by left|done].
      * rewrite decide_False by (by intros ?%bool_decide_unpack). tauto.
    + exact IH.
    + exact IH.
Qed.

Lemma count_max_numeric f :
  CObj ∉ count <$> f →
  ∃ v, count_max f = Value v ∧ py_gt0 v = has_positive_count f.
Proof.
  intros Hobj. destruct (mapM_cell_number_Some _ Hobj) as (xs & Hxs & Hnum).
  exists (series_max xs). split.
  - unfold count_max. by rewrite Hxs.
  - rewrite py_gt0_series_max, Hnum. unfold has_positive_count.
    apply bool_decide_ext. symmetry. apply positive_counts_nonempty.
Qed.

Lemma fmap_set_hovertemplate_mode s (fig : Figure) :
  go.mode <$> (go.set_hovertemplate s <$> fig) = go.mode <$> fig.
Proof. rewrite <- list_fmap_compose. by apply list_fmap_ext. Qed.

End charts.

Lemma fmap_set_hovertemplate_summary s (fig : Figure) :
  trace_summary <$> (go.set_hovertemplate s <$> fig) = trace_summary <$> fig.
Proof. rewrite <- list_fmap_compose. by apply list_fmap_ext. Qed.

(** X13.  On frames whose counts are numbers or NaN, and with the
    colours of [get_delta_pct], [create_combined_chart] fails in one case
    only: called without lines and with markers on a previous frame that
    has a count above 0, it raises [UnboundLocalError] for its local
    [prev_markers].  In every other case it returns a figure with these
    traces, in this order.  With lines asked for: the line named Current
    Period over the dates, the [cumsum] and the counts of the current
    frame, in the two colours given, when that frame has a count above
    0; then the line named Previous Period over the previous frame, in
    light grey, when that frame has a count above 0.  With markers asked
    for: the markers of the previous frame, then those of the current
    frame, each over the rows of its frame with a count above 0, when
    there is one. *)
Theorem create_combined_chart_outcome curr prev delta markers lines :
  CObj ∉ count <$> curr → CObj ∉ count <$> prev →
  let result :=
    create_combined_chart curr prev (line_colors delta).1 (line_colors delta).2
      markers lines in
  let c := has_positive_count curr in
  let p := has_positive_count prev in
  let line (name : string) (f : DataFrame) (fillcolor line_color : option string) :=
    ("lines"%string, Some name, date_created <$> f, cumsum <$> f, count <$> f,
     fillcolor, line_color) in
  let dots (f : DataFrame) :=
    ("markers"%string, @None string, date_created <$> positive_counts f,
     cumsum <$> positive_counts f, count <$> positive_counts f,
     @None string, @None string) in
  if negb lines && markers && p then
    result = Error (UnboundLocalError "prev_markers")
  else
    ∃ fig, result = Value fig ∧
      trace_summary <$> fig
      = (if c && lines
         then [line "Current Period"%string curr
                 (Some (line_colors delta).1) (Some (line_colors delta).2)]
         else []) ++
        (if p && lines
         then [line "Previous Period"%string prev None (Some "lightgrey"%string)]
         else []) ++
        (if p && markers then [dots prev] else []) ++
        (if c && markers then [dots curr] else []).
Proof.
  intros Hcurr Hprev result c p line dots.
  unfold result, line, dots, create_combined_chart.
  destruct (count_max_numeric curr Hcurr) as (vc & -> & Hc).
  destruct (count_max_numeric prev Hprev) as (vp & -> & Hp).
  cbn [attempt_bind]. rewrite Hc, Hp. fold c p. clearbody c p.
  destruct c, p, lines, markers; cbn [negb andb attempt_bind];
    try reflexivity;
    (eexists; split; [reflexivity|];
     by rewrite fmap_set_hovertemplate_summary).
Qed.

(** ** The chart of a combined frame *)

Section chart_of_combined.

Lemma has_positive_count_counts f f' :
  omap numeric (count <$> f') = omap numeric (count <$> f) →
  has_positive_count f' = has_positive_count f.
Proof.
  intros Hc. unfold has_positive_count. apply bool_decide_ext.
  by rewrite !positive_counts_nonempty, Hc.
Qed.

Lemma carried_counts f f' :
  Forall2 carried_over f f' →
  (CObj ∉ count <$> f') ∧
  omap numeric (count <$> f') = omap numeric (count <$> f).
Proof.
  induction 1 as [|r r' f f' (_ & Hc & _) _ [IH1 IH2]].
  - split; [apply not_elem_of_nil|done].
  - rewrite !fmap_cons, not_elem_of_cons, Hc. split.
    + split; [by destruct (count r)|done].
    + destruct (count r) as [z| |];
        [exact (f_equal (cons z) IH2)|exact IH2..].
Qed.

Lemma omap_numeric_set_period p (f : DataFrame) :
  omap numeric (count <$> (set_period p <$> f)) = omap numeric (count <$> f).
Proof. by rewrite fmap_set_period. Qed.

Lemma has_positive_count_anchor d f :
  has_positive_count (anchor_row d :: f) = has_positive_count f.
Proof.
  unfold has_positive_count, positive_counts.
  by rewrite filter_cons_False by (by intros ?%bool_decide_unpack).
Qed.

(** The two halves of a combined frame. *)
Lemma tagged_combined (prev_rows cur_rows : DataFrame) :
  let combined :=
    with_combined_cumsum
      ((set_period Previous <$> prev_rows) ++ (set_period Current <$> cur_rows)) in
  Forall2 carried_over (set_period Previous <$> prev_rows)
    (tagged Previous combined) ∧
  Forall2 carried_over (set_period Current <$> cur_rows)
    (tagged Current combined).
Proof.
  intros combined. split.
  - pose proof (carried_tagged Previous _ _
                  (with_combined_cumsum_carried
                     ((set_period Previous <$> prev_rows)
                      ++ (set_period Current <$> cur_rows)))) as Ht.
    unfold tagged at 1 in Ht. rewrite filter_app in Ht.
    fold (tagged Previous (set_period Previous <$> prev_rows)) in Ht.
    fold (tagged Previous (set_period Current <$> cur_rows)) in Ht.
    rewrite tagged_all, tagged_none, app_nil_r in Ht by done. done.
  - pose proof (carried_tagged Current _ _
                  (with_combined_cumsum_carried
                     ((set_period Previous <$> prev_rows)
                      ++ (set_period Current <$> cur_rows)))) as Ht.
    unfold tagged at 1 in Ht. rewrite filter_app in Ht.
    fold (tagged Current (set_period Previous <$> prev_rows)) in Ht.
    fold (tagged Current (set_period Current <$> cur_rows)) in Ht.
    rewrite tagged_all, tagged_none in Ht by done. done.
Qed.

End chart_of_combined.

Lemma carried_positive_counts f f' :
  Forall2 carried_over f f' →
  Forall2 carried_over (positive_counts f) (positive_counts f').
Proof.
  intros Hf. unfold positive_counts. eapply Forall2_filter; [|done].
  intros r r' (_ & Hc & _). rewrite Hc. by destruct (count r).
Qed.

Lemma positive_counts_set_period p f :
  positive_counts (set_period p <$> f) = set_period p <$> positive_counts f.
Proof.
  unfold positive_counts. induction f as [|r f IH]; [done|].
  rewrite fmap_cons, !filter_cons. simpl count.
  destruct (decide (positive (count r))); [rewrite fmap_cons|]; by rewrite IH.
Qed.

Lemma positive_counts_anchor d f :
  positive_counts (anchor_row d :: f) = positive_counts f.
Proof.
  unfold positive_counts.
  by rewrite filter_cons_False by (by intros ?%bool_decide_unpack).
Qed.

(** The columns a trace is drawn from, in a part of a combined frame. *)
Lemma carried_columns p (f f' : DataFrame) :
  Forall2 carried_over (set_period p <$> f) f' →
  date_created <$> f' = date_created <$> f ∧
  cumsum <$> f' = cumsum <$> f ∧
  count <$> f' = to_numeric ∘ count <$> f.
Proof.
  intros Hf. split_and!.
  - rewrite (carried_fmap date_created _ _ (λ r r' H, proj1 H) Hf).
    by rewrite fmap_set_period.
  - rewrite (carried_fmap cumsum _ _ (λ r r' H, proj1 (proj2 (proj2 H))) Hf).
    by rewrite fmap_set_period.
  - assert (count <$> f' = to_numeric ∘ count <$> (set_period p <$> f)) as ->.
    { clear -Hf. induction Hf as [|r r' l l' (_ & Hc & _) _ IH]; [done|].
      rewrite !fmap_cons. simpl. by rewrite Hc, IH. }
    by rewrite fmap_set_period.
Qed.

Lemma carried_marker_columns p (f f' : DataFrame) :
  Forall2 carried_over (set_period p <$> f) f' →
  date_created <$> positive_counts f' = date_created <$> positive_counts f ∧
  cumsum <$> positive_counts f' = cumsum <$> positive_counts f ∧
  count <$> positive_counts f' = to_numeric ∘ count <$> positive_counts f.
Proof.
  intros Hf. apply (carried_columns p).
  rewrite <- positive_counts_set_period. by apply carried_positive_counts.
Qed.

(** X14.  The chart of a frame [create_combined_data] returned, drawn by
    [generate_streamlit_chart] with the colours of the same call, never
    fails, and its traces are these, in this order.  When the later
    window has a count above 0, the line named Current Period, in the
    colours of the call: it starts on the day of the earlier window's
    second-to-last row at 0 and goes on with the days and the [cumsum]
    of the later window.  When the earlier window without its final row
    has a count above 0, the line named Previous Period over those rows,
    in light grey.  With markers asked for, the markers of the previous
    line, then those of the current line, each over the rows with a
    count above 0, when its line is there. *)
Theorem generate_streamlit_chart_of_combined
    h current_data previous_data C P show_markers chart_id :
  h !! current_data = Some C → h !! previous_data = Some P →
  (2 ≤ length P)%nat →
  let c := has_positive_count C in
  let earlier := removelast P in
  let p := has_positive_count earlier in
  ∃ r delta c1 c2 h' combined r2 fig,
    create_combined_data current_data previous_data h
      = (Returned (r, delta, c1, c2), h') ∧
    h' !! r = Some combined ∧
    P !! (length P - 2)%nat = Some r2 ∧
    generate_streamlit_chart c1 c2 combined show_markers chart_id
      = Value (plotly_chart fig chart_id) ∧
    trace_summary <$> fig
    = (if c
       then [("lines"%string, Some "Current Period"%string,
              date_created r2 :: (date_created <$> C),
              Some 0 :: (cumsum <$> C),
              CNum 0 :: (to_numeric ∘ count <$> C),
              Some c1, Some c2)]
       else []) ++
      (if p
       then [("lines"%string, Some "Previous Period"%string,
              date_created <$> earlier, cumsum <$> earlier,
              to_numeric ∘ count <$> earlier,
              None, Some "lightgrey"%string)]
       else []) ++
      (if p && show_markers
       then [("markers"%string, None,
              date_created <$> positive_counts earlier,
              cumsum <$> positive_counts earlier,
              to_numeric ∘ count <$> positive_counts earlier,
              None, None)]
       else []) ++
      (if c && show_markers
       then [("markers"%string, None,
              date_created <$> positive_counts C,
              cumsum <$> positive_counts C,
              to_numeric ∘ count <$> positive_counts C,
              None, None)]
       else []).
Proof.
  intros HC HP Hlen c earlier p.
  destruct (iloc_neg2_run P Hlen) as (r2 & Hr2 & _).
  destruct (create_combined_data_result h current_data previous_data C P HC HP
              r2 Hlen Hr2) as (delta & _ & Hrun).
  fold earlier in Hrun.
  set (cur_rows := anchor_row (date_created r2) :: C) in *.
  set (combined := with_combined_cumsum _) in Hrun.
  destruct (tagged_combined earlier cur_rows) as [Hprev Hcur].
  fold combined in Hprev, Hcur.
  destruct (carried_counts _ _ Hprev) as [Hpobj Hpnum].
  destruct (carried_counts _ _ Hcur) as [Hcobj Hcnum].
  rewrite omap_numeric_set_period in Hpnum, Hcnum.
  assert (has_positive_count (tagged Current combined) = c) as Hc.
  { rewrite (has_positive_count_counts cur_rows) by done.
    apply has_positive_count_anchor. }
  assert (has_positive_count (tagged Previous combined) = p) as Hp
    by (by apply has_positive_count_counts).
  destruct (carried_columns _ _ _ Hcur) as (Hcx & Hcy & Hct).
  destruct (carried_columns _ _ _ Hprev) as (Hpx & Hpy & Hpt).
  destruct (carried_marker_columns _ _ _ Hcur) as (Hcmx & Hcmy & Hcmt).
  destruct (carried_marker_columns _ _ _ Hprev) as (Hpmx & Hpmy & Hpmt).
  unfold cur_rows in Hcmx, Hcmy, Hcmt.
  rewrite positive_counts_anchor in Hcmx, Hcmy, Hcmt.
  eexists _, delta, _, _, _, combined, r2.
  cut (∃ fig,
    generate_streamlit_chart (line_colors delta).1 (line_colors delta).2
      combined show_markers chart_id = Value (plotly_chart fig chart_id) ∧
    trace_summary <$> fig
    = (if c
       then [("lines"%string, Some "Current Period"%string,
              date_created r2 :: (date_created <$> C),
              Some 0 :: (cumsum <$> C),
              CNum 0 :: (to_numeric ∘ count <$> C),
              Some (line_colors delta).1, Some (line_colors delta).2)]
       else []) ++
      (if p
       then [("lines"%string, Some "Previous Period"%string,
              date_created <$> earlier, cumsum <$> earlier,
              to_numeric ∘ count <$> earlier,
              None, Some "lightgrey"%string)]
       else []) ++
      (if p && show_markers
       then [("markers"%string, None,
              date_created <$> positive_counts earlier,
              cumsum <$> positive_counts earlier,
              to_numeric ∘ count <$> positive_counts earlier,
              None, None)]
       else []) ++
      (if c && show_markers
       then [("markers"%string, None,
              date_created <$> positive_counts C,
              cumsum <$> positive_counts C,
              to_numeric ∘ count <$> positive_counts C,
              None, None)]
       else [])).
  { intros (fig & Hfig). exists fig.
    split; [exact Hrun|]. split; [by rewrite lookup_tail|]. split; [done|].
    exact Hfig. }
  unfold generate_streamlit_chart, create_combined_chart.
  fold (tagged Current combined) (tagged Previous combined).
  destruct (count_max_numeric _ Hcobj) as (vc & -> & Hvc).
  destruct (count_max_numeric _ Hpobj) as (vp & -> & Hvp).
  cbn [attempt_bind].
  rewrite Hvc, Hvp, Hc, Hp, Hcx, Hcy, Hct, Hpx, Hpy, Hpt.
  rewrite ?Hcmx, ?Hcmy, ?Hcmt, ?Hpmx, ?Hpmy, ?Hpmt.
  clearbody c p.
  destruct c, p, show_markers; cbn [andb attempt_bind];
    rewrite ?Hpmx, ?Hpmy, ?Hpmt;
    (eexists; split; [reflexivity|]);
    by rewrite fmap_set_hovertemplate_summary.
Qed.

(** The two example windows drawn with markers only: the previous one
    has clients, so the call fails. *)
Lemma create_combined_chart_outcome_witness :
  (CObj ∉ count <$> example_later) ∧ (CObj ∉ count <$> example_earlier) ∧
  create_combined_chart example_later example_earlier
    (line_colors (Num 1)).1 (line_colors (Num 1)).2 true false
  = Error (UnboundLocalError "prev_markers").
Proof.
  assert (CObj ∉ count <$> example_later) as Hlater.
  { intros H. repeat (apply elem_of_cons in H as [H|H]; [discriminate|]).
    by apply elem_of_nil in H. }
  assert (CObj ∉ count <$> example_earlier) as Hearlier.
  { intros H. repeat (apply elem_of_cons in H as [H|H]; [discriminate|]).
    by apply elem_of_nil in H. }
  split; [exact Hlater|]. split; [exact Hearlier|].
  exact (create_combined_chart_outcome example_later example_earlier (Num 1)
           true false Hlater Hearlier).
Defined.

(** The chart of the two example windows, with markers: the two lines,
    meeting on day 97, then the markers of the days with clients. *)
Lemma generate_streamlit_chart_of_combined_witness :
  example_windows !! 0%nat = Some example_later ∧
  example_windows !! 1%nat = Some example_earlier ∧
  (2 ≤ length example_earlier)%nat ∧
  ∃ r delta c1 c2 h' combined fig,
    create_combined_data 0 1 example_windows
      = (Returned (r, delta, c1, c2), h') ∧
    h' !! r = Some combined ∧
    generate_streamlit_chart c1 c2 combined true "current"
      = Value (plotly_chart fig "current") ∧
    trace_summary <$> fig
    = [("lines"%string, Some "Current Period"%string, [97; 98; 99; 100],
        [Some 0; Some 0; Some 2; Some 3], [CNum 0; CNum 0; CNum 2; CNum 1],
        Some c1, Some c2);
       ("lines"%string, Some "Previous Period"%string, [96; 97],
        [Some 0; Some 1], [CNum 0; CNum 1], None, Some "lightgrey"%string);
       ("markers"%string, None, [97], [Some 1], [CNum 1], None, None);
       ("markers"%string, None, [99; 100], [Some 2; Some 3],
        [CNum 2; CNum 1], None, None)].
Proof.
  split; [reflexivity|]. split; [reflexivity|]. split; [simpl; lia|].
  destruct (generate_streamlit_chart_of_combined example_windows 0 1
              example_later example_earlier true "current" eq_refl eq_refl
              ltac:(simpl; lia))
    as (r & delta & c1 & c2 & h' & combined & r2 & fig & Hrun & Hr & Hr2
        & Hfig & Hsum).
  exists r, delta, c1, c2, h', combined, fig.
  split; [exact Hrun|]. split; [exact Hr|]. split; [exact Hfig|].
  injection Hr2 as <-. exact Hsum.
Defined.

(** ** What the dashboard shows *)

Section view.














End view.

Section third_column.


End third_column.



(** ** The deltas of the appointment analysis *)

Section appointment_deltas.



End appointment_deltas.


(** ** New objects *)


(** X18.  With an earlier window of at least two rows,
    [create_combined_data] returns a reference to a new object: it was
    not in the heap of the call, so it is neither of the two inputs.
    Called again on the heap it leaves, it returns the same frame. *)
Theorem create_combined_data_fresh h current_data previous_data C P :
  h !! current_data = Some C → h !! previous_data = Some P →
  (2 ≤ length P)%nat →
  ∃ r delta c1 c2 h',
    create_combined_data current_data previous_data h
      = (Returned (r, delta, c1, c2), h') ∧
    h !! r = None ∧ is_Some (h' !! r) ∧
    r ≠ current_data ∧ r ≠ previous_data ∧
    combined_frame current_data previous_data h'
      = combined_frame current_data previous_data h.
Proof.
  intros HC HP Hlen.
  destruct (iloc_neg2_run P Hlen) as (r2 & Hr2 & _).
  destruct (create_combined_data_result h current_data previous_data C P HC HP
              r2 Hlen Hr2) as (delta & _ & Hrun).
  do 5 eexists. split; [exact Hrun|].
  assert (h !! (length h + 3)%nat = None) as Hnew
    by (apply lookup_ge_None; lia).
  split_and!.
  - done.
  - by rewrite lookup_tail.
  - intros Heq. rewrite Heq in Hnew. congruence.
  - intros Heq. rewrite Heq in Hnew. congruence.
  - rewrite (combined_frame_run h current_data previous_data C P HC HP r2
               Hlen Hr2).
    apply (combined_frame_run _ current_data previous_data C P);
      [by apply lookup_app_l_Some..|done|done].
Qed.


Lemma create_combined_data_fresh_witness :
  example_windows !! 0%nat = Some example_later ∧
  example_windows !! 1%nat = Some example_earlier ∧
  (2 ≤ length example_earlier)%nat ∧
  ∃ r delta c1 c2 h',
    create_combined_data 0 1 example_windows
      = (Returned (r, delta, c1, c2), h') ∧
    example_windows !! r = None ∧ r ≠ 0%nat ∧ r ≠ 1%nat.
Proof.
  split; [reflexivity|]. split; [reflexivity|]. split; [simpl; lia|].
  destruct (create_combined_data_fresh example_windows 0 1 example_later
              example_earlier eq_refl eq_refl ltac:(simpl; lia))
    as (r & delta & c1 & c2 & h' & Hrun & Hnew & _ & Hc & Hp & _).
  exists r, delta, c1, c2, h'. split_and!; assumption.
Defined.
